(** * GreenGrid: the weather-driven energy simulator

    A shallow embedding of [src/utils/weatherBasedEnergyData.ts]
    (class [WeatherBasedEnergySimulator]) and the properties its
    specification states about it.

    Conventions of the embedding.
    - A JavaScript [number] is a real number ([R]): the arithmetic of the
      source is read exactly, without the rounding of IEEE doubles and
      without NaN or infinities.
    - [Math.random()] reads the next element of an explicit stream of
      draws; [new Date()] is an explicit [Date] argument.
    - A method that mutates [this] or draws random numbers, or that may
      throw, is a computation of the monad [M] over the [Store]. *)

From Stdlib Require Import Reals Lra Lia ZArith String List Bool Sorted.
Import ListNotations.

Set Implicit Arguments.

#[local] Open Scope R_scope.

(* ================================================================== *)
(** ** The JavaScript primitives the source uses *)

Module JS.

(** [a < b] and [a > b] as the source's conditions use them. *)
Definition lt (a b : R) : bool := if Rlt_dec a b then true else false.
Definition gt (a b : R) : bool := lt b a.

Definition Math_min (a b : R) : R := Rmin a b.
Definition Math_max (a b : R) : R := Rmax a b.
Definition Math_abs (a : R) : R := Rabs a.
Definition Math_sin (a : R) : R := sin a.
Definition Math_PI : R := PI.

(** [Math.round] rounds to the nearest integer, halves upwards:
    [floor (x + 1/2)]. *)
Definition Math_round (x : R) : R := IZR (Int_part (x + / 2)).

(** [Math.pow x y] on a positive base, the only bases the source passes:
    both call sites are guarded ([windSpeed >= 3], [temperature > 30]). *)
Definition Math_pow (x y : R) : R := Rpower x y.

(** A stream of [Math.random()] outcomes, each meant to lie in [[0,1)]. *)
Definition Stream := nat -> R.

End JS.

Import JS.

Infix "<?" := JS.lt (at level 70, no associativity) : R_scope.
Infix ">?" := JS.gt (at level 70, no associativity) : R_scope.

(* ================================================================== *)
(** ** Data model *)

Inductive Condition :=
  sunny | partly_cloudy | cloudy | dusty | rainy | clear_night.

Inductive Recommendation :=
  charge_now | discharge_now | maintain | prepare_for_peak.

Inductive Season := winter | summer | monsoon | postMonsoon.

Inductive ForecastLabel := Surplus | Deficit | Balanced.

(** One forecast horizon. *)
Record ForecastEntry := {
  fc_condition : Condition;
  fc_temperature : R;
  fc_windSpeed : R;
  fc_cloudCover : R
}.

(** The entries are optional at run time: reading a field of a missing one
    is the [TypeError] that [calculateOptimalBatteryLevel] catches. *)
Record Forecast := {
  next1h : option ForecastEntry;
  next6h : option ForecastEntry;
  next24h : option ForecastEntry
}.

(** [forecast] is declared mandatory, yet the source tests [!weather.forecast]
    in two places: at run time it may be missing. *)
Record WeatherData := {
  condition : Condition;
  temperature : R;
  humidity : R;
  windSpeed : R;
  cloudCover : R;
  uvIndex : R;
  visibility : R;
  forecast : option Forecast
}.

Record EnergyPrediction := {
  solarEfficiency : R;
  windEfficiency : R;
  loadMultiplier : R;
  batteryOptimalCharge : R;
  recommendation : Recommendation
}.

Record IoTSensorData := {
  panelTemperature : R;
  panelTilt : R;
  windTurbineRPM : R;
  ambientLight : R;
  batteryVoltage : R;
  inverterEfficiency : R;
  loadPowerFactor : R
}.

Record EnergyRecord := {
  timestamp : string;
  solar_gen_kW : R;
  wind_gen_kW : R;
  load_demand_kW : R;
  battery_soc_percent : R;
  grid_import_kW : R;
  grid_export_kW : R;
  weather : Condition;
  forecast_label : ForecastLabel;
  record_temperature : R;
  carbon_saved_kg : R
}.

(** What [new Date()] is read for. [getMonth] is zero-based. *)
Record Date := {
  getMonth : Z;
  getHours : Z;
  toISOString : string
}.

(** The fields of a [WeatherBasedEnergySimulator] that its methods read or
    write ([historicalWeatherPattern], [lastIoTUpdate] and [location] are
    never read). [SystemMode] is a compile-time type only: at run time the
    field holds whatever string [setMode] was given. *)
Record Simulator := {
  mode : string;
  weatherApiKey : string;
  batteryLevel : R
}.

Definition set_batteryLevel (v : R) (this : Simulator) : Simulator :=
  {| mode := mode this; weatherApiKey := weatherApiKey this; batteryLevel := v |}.

(** The constructor; the field initialiser seeds [batteryLevel] at 60. *)
Definition new_simulator (mode0 apiKey : string) : Simulator :=
  {| mode := mode0; weatherApiKey := apiKey; batteryLevel := 60 |}.

(** The exported instance, [new WeatherBasedEnergySimulator()]. *)
Definition weatherBasedEnergySimulator : Simulator :=
  new_simulator "online" EmptyString.

(* ================================================================== *)
(** ** The battery update *)

Definition calculateBatteryLevel
    (energyBalance optimalLevel : R) (recommendation : Recommendation)
    (this : Simulator) : R * Simulator :=
  let chargeRate := 2 in
  let dischargeRate := 1.5 in
  let this' :=
    match recommendation with
    | charge_now =>
        if (energyBalance >? 0) && (batteryLevel this <? optimalLevel)
        then set_batteryLevel
               (batteryLevel this + Math_min chargeRate (energyBalance * 0.1)) this
        else this
    | discharge_now =>
        if (energyBalance <? 0) && (batteryLevel this >? 20)
        then set_batteryLevel
               (batteryLevel this
                - Math_min dischargeRate (Math_abs energyBalance * 0.05)) this
        else this
    | prepare_for_peak =>
        if (energyBalance >? 10) && (batteryLevel this <? 90)
        then set_batteryLevel
               (batteryLevel this
                + Math_min (chargeRate * 1.5) (energyBalance * 0.08)) this
        else this
    | maintain =>
        if (energyBalance >? 20) && (batteryLevel this <? 80)
        then set_batteryLevel
               (batteryLevel this + Math_min 1 (energyBalance * 0.03)) this
        else if (energyBalance <? -20) && (batteryLevel this >? 30)
        then set_batteryLevel
               (batteryLevel this - Math_min 1 (Math_abs energyBalance * 0.02)) this
        else this
    end in
  (Math_max 5 (Math_min 100 (batteryLevel this')), this').

(** One call of the update, as its three arguments. *)
Record Update := {
  u_balance : R;
  u_optimal : R;
  u_recommendation : Recommendation
}.

Definition apply_update (this : Simulator) (u : Update) : Simulator :=
  snd (calculateBatteryLevel (u_balance u) (u_optimal u) (u_recommendation u) this).

(** The simulator after a sequence of calls, first call first. *)
Definition run_updates (us : list Update) (this : Simulator) : Simulator :=
  fold_left apply_update us this.

(* ================================================================== *)
(** ** Effects: exceptions, the simulator's fields, the random source *)

Inductive Outcome (A : Type) :=
  | Return (a : A)
  | Throw (e : string).

Arguments Return {A} a.
Arguments Throw {A} e.

(** Exceptions alone, for the code that neither mutates nor draws. *)
Definition obind {A B} (c : Outcome A) (k : A -> Outcome B) : Outcome B :=
  match c with
  | Return a => k a
  | Throw e => Throw e
  end.

Definition ocatch {A} (c : Outcome A) (handler : string -> A) : A :=
  match c with
  | Return a => a
  | Throw e => handler e
  end.

Record Store := {
  self : Simulator;
  entropy : Stream
}.

Definition M (A : Type) : Type := Store -> Outcome A * Store.

Definition ret {A} (a : A) : M A := fun st => (Return a, st).

Definition throw {A} (e : string) : M A := fun st => (Throw e, st).

Definition bind {A B} (c : M A) (k : A -> M B) : M B :=
  fun st =>
    match c st with
    | (Return a, st') => k a st'
    | (Throw e, st') => (Throw e, st')
    end.

(** [try { body } catch (error) { handler }]: what [body] did to the store
    before it threw stays done. *)
Definition try_catch {A} (body : M A) (handler : string -> M A) : M A :=
  fun st =>
    match body st with
    | (Return a, st') => (Return a, st')
    | (Throw e, st') => handler e st'
    end.

(** Read a field of [this]. *)
Definition read {A} (f : Simulator -> A) : M A :=
  fun st => (Return (f (self st)), st).

(** Run a method written as a function of [this]. *)
Definition on_this {A} (f : Simulator -> A * Simulator) : M A :=
  fun st =>
    let (a, this') := f (self st) in
    (Return a, {| self := this'; entropy := entropy st |}).

(** [Math.random()]: the head of the stream, which advances. *)
Definition Math_random : M R :=
  fun st =>
    (Return (entropy st 0%nat),
     {| self := self st; entropy := fun n => entropy st (S n) |}).

Declare Scope method_scope.
Delimit Scope method_scope with method.
Notation "x <- c ;; k" := (bind c (fun x => k))
  (at level 61, c at next level, right associativity) : method_scope.
Notation "x <-? c ;; k" := (obind c (fun x => k))
  (at level 61, c at next level, right associativity) : method_scope.
#[local] Open Scope method_scope.

(* ================================================================== *)
(** ** Mode and season *)

(** A string is truthy unless it is empty; [undefined] is falsy. *)
Definition truthy (s : option string) : bool :=
  match s with
  | Some s => negb (String.eqb s EmptyString)
  | None => false
  end.

Definition setMode (mode0 : string) (apiKey : option string) : M unit :=
  on_this (fun this =>
    let this := {| mode := mode0; weatherApiKey := weatherApiKey this;
                   batteryLevel := batteryLevel this |} in
    let this :=
      if truthy apiKey
      then {| mode := mode this;
              weatherApiKey := match apiKey with Some k => k | None => EmptyString end;
              batteryLevel := batteryLevel this |}
      else this in
    (tt, this)).

Record SeasonData := {
  months : list Z;
  solarBoost : R;
  heatLoad : R
}.

Definition rajashtanSeasonalFactors (s : Season) : SeasonData :=
  match s with
  | winter => {| months := [12; 1; 2]%Z; solarBoost := 0.9; heatLoad := 0.3 |}
  | summer => {| months := [3; 4; 5; 6]%Z; solarBoost := 1.1; heatLoad := 1.5 |}
  | monsoon => {| months := [7; 8; 9]%Z; solarBoost := 0.6; heatLoad := 0.8 |}
  | postMonsoon => {| months := [10; 11]%Z; solarBoost := 1.0; heatLoad := 0.9 |}
  end.

Definition includes (l : list Z) (x : Z) : bool := existsb (Z.eqb x) l.

Definition getCurrentSeason (now : Date) : Season :=
  let month := (getMonth now + 1)%Z in
  if includes (months (rajashtanSeasonalFactors winter)) month then winter
  else if includes (months (rajashtanSeasonalFactors summer)) month then summer
  else if includes (months (rajashtanSeasonalFactors monsoon)) month then monsoon
  else postMonsoon.

Definition getSeasonalBaseTemperature (season : Season) : R :=
  match season with
  | winter => 18
  | summer => 35
  | monsoon => 28
  | postMonsoon => 25
  end.

Definition getTemperatureRange (season : Season) : R :=
  match season with
  | winter => 8
  | summer => 12
  | monsoon => 6
  | postMonsoon => 9
  end.

Definition Season_eqb (a b : Season) : bool :=
  match a, b with
  | winter, winter | summer, summer | monsoon, monsoon
  | postMonsoon, postMonsoon => true
  | _, _ => false
  end.

Definition Condition_eqb (a b : Condition) : bool :=
  match a, b with
  | sunny, sunny | partly_cloudy, partly_cloudy | cloudy, cloudy
  | dusty, dusty | rainy, rainy | clear_night, clear_night => true
  | _, _ => false
  end.

(* ================================================================== *)
(** ** Weather synthesis *)

(** The deterministic part of the temperature: the seasonal base plus
    [dailyVariation]. *)
Definition dailyTemperature (season : Season) (hour : R) : R :=
  let baseTemp := getSeasonalBaseTemperature season in
  let dailyVariation :=
    Math_sin ((hour - 6) / 12 * Math_PI) * getTemperatureRange season in
  baseTemp + dailyVariation.

(** The closure [getConditionForHour] of [generateShortTermForecast]; it
    ignores its argument and draws once. *)
Definition getConditionForHour (season : Season) (hour : R) : M Condition :=
  if Season_eqb season monsoon then
    r <- Math_random ;; ret (if r <? 0.4 then rainy else cloudy)
  else if Season_eqb season summer then
    r <- Math_random ;; ret (if r <? 0.7 then sunny else dusty)
  else
    r <- Math_random ;; ret (if r <? 0.6 then sunny else partly_cloudy).

Definition generateShortTermForecast (currentHour : R) (season : Season)
  : M Forecast :=
  let baseTemp := getSeasonalBaseTemperature season in
  let tempRange := getTemperatureRange season in
  c1 <- getConditionForHour season (currentHour + 1) ;;
  w1 <- Math_random ;;
  k1 <- Math_random ;;
  c6 <- getConditionForHour season (currentHour + 6) ;;
  w6 <- Math_random ;;
  k6 <- Math_random ;;
  c24 <- getConditionForHour season (currentHour + 24) ;;
  w24 <- Math_random ;;
  k24 <- Math_random ;;
  ret {|
    next1h := Some {|
      fc_condition := c1;
      fc_temperature :=
        Math_round ((baseTemp
                     + Math_sin ((currentHour + 1 - 6) / 12 * Math_PI) * tempRange)
                    * 10) / 10;
      fc_windSpeed := Math_round ((3 + w1 * 5) * 10) / 10;
      fc_cloudCover := Math_round ((20 + k1 * 40) * 10) / 10 |};
    next6h := Some {|
      fc_condition := c6;
      fc_temperature :=
        Math_round ((baseTemp
                     + Math_sin ((currentHour + 6 - 6) / 12 * Math_PI) * tempRange)
                    * 10) / 10;
      fc_windSpeed := Math_round ((4 + w6 * 6) * 10) / 10;
      fc_cloudCover := Math_round ((10 + k6 * 30) * 10) / 10 |};
    next24h := Some {|
      fc_condition := c24;
      fc_temperature := Math_round (baseTemp * 10) / 10;
      fc_windSpeed := Math_round ((3 + w24 * 7) * 10) / 10;
      fc_cloudCover := Math_round ((25 + k24 * 35) * 10) / 10 |}
  |}.

Definition generateRealisticWeatherData (now : Date) (hour : R) : M WeatherData :=
  let season := getCurrentSeason now in
  let seasonData := rajashtanSeasonalFactors season in
  let baseTemp := getSeasonalBaseTemperature season in
  let dailyVariation :=
    Math_sin ((hour - 6) / 12 * Math_PI) * getTemperatureRange season in
  jitter <- Math_random ;;
  let temperature := baseTemp + dailyVariation + (jitter - 0.5) * 3 in
  drawn <-
    (if Season_eqb season monsoon then
       r <- Math_random ;;
       let cloudCover := 60 + r * 40 in
       let condition := if cloudCover >? 80 then cloudy else partly_cloudy in
       r' <- Math_random ;;
       let condition := if r' <? 0.3 then rainy else condition in
       ret (cloudCover, condition)
     else if Season_eqb season summer then
       r <- Math_random ;;
       let cloudCover := r * 30 in
       ret (cloudCover,
            if cloudCover <? 10 then sunny
            else if cloudCover <? 20 then partly_cloudy else dusty)
     else
       r <- Math_random ;;
       let cloudCover := r * 50 in
       ret (cloudCover,
            if cloudCover <? 15 then sunny
            else if cloudCover <? 35 then partly_cloudy else cloudy)) ;;
  let cloudCover := fst drawn in
  let condition := snd drawn in
  let condition :=
    if (hour <? 6) || (hour >? 19) then clear_night else condition in
  windSpeed <-
    (if Season_eqb season summer
     then r <- Math_random ;; ret (3 + r * 8)
     else r <- Math_random ;; ret (2 + r * 5)) ;;
  humidity <-
    (if Season_eqb season monsoon
     then r <- Math_random ;; ret (70 + r * 25)
     else if Season_eqb season summer
     then r <- Math_random ;; ret (20 + r * 30)
     else r <- Math_random ;; ret (40 + r * 35)) ;;
  let uvIndex :=
    if Condition_eqb condition sunny
    then Math_min 11 (6 + Math_sin ((hour - 6) / 12 * Math_PI) * 5)
    else if Condition_eqb condition partly_cloudy
    then Math_min 8 (4 + Math_sin ((hour - 6) / 12 * Math_PI) * 3)
    else 2 in
  visibility <-
    (if Condition_eqb condition dusty
     then r <- Math_random ;; ret (2 + r * 3)
     else if Condition_eqb condition rainy
     then r <- Math_random ;; ret (1 + r * 2)
     else r <- Math_random ;; ret (8 + r * 7)) ;;
  forecast <- generateShortTermForecast hour season ;;
  ret {|
    condition := condition;
    temperature := Math_round (temperature * 10) / 10;
    humidity := Math_round (humidity * 10) / 10;
    windSpeed := Math_round (windSpeed * 10) / 10;
    cloudCover := Math_round (cloudCover * 10) / 10;
    uvIndex := Math_round (uvIndex * 10) / 10;
    visibility := Math_round (visibility * 10) / 10;
    forecast := Some forecast
  |}.

Definition generateIoTSensorData (weather : WeatherData) : M IoTSensorData :=
  let panelTemperature := temperature weather + 15 + uvIndex weather * 2 in
  ambientLight <-
    (if Condition_eqb (condition weather) sunny
     then r <- Math_random ;; ret (80000 + r * 20000)
     else if Condition_eqb (condition weather) partly_cloudy
     then r <- Math_random ;; ret (40000 + r * 30000)
     else if Condition_eqb (condition weather) cloudy
     then r <- Math_random ;; ret (10000 + r * 15000)
     else ret 500) ;;
  rpm <- Math_random ;;
  volt <- Math_random ;;
  inv <- Math_random ;;
  pf <- Math_random ;;
  ret {|
    panelTemperature := Math_round (panelTemperature * 10) / 10;
    panelTilt := 30;
    windTurbineRPM := Math_round (windSpeed weather * 25 + rpm * 50);
    ambientLight := Math_round ambientLight;
    batteryVoltage := 48.0 + (volt - 0.5) * 2;
    inverterEfficiency := 94 + inv * 4;
    loadPowerFactor := 0.85 + pf * 0.1
  |}.

(* ================================================================== *)
(** ** Efficiency prediction *)

Record Efficiency := {
  solarEff : R;
  windEff : R;
  loadMult : R
}.

(** [forecastData] has type [any]; reading a field of a missing entry
    throws. *)
Definition calculateSimplifiedEfficiency
    (now : Date) (forecastData : option ForecastEntry)
    (currentWeather : WeatherData) : Outcome Efficiency :=
  let season := getCurrentSeason now in
  let seasonData := rajashtanSeasonalFactors season in
  match forecastData with
  | None => Throw "TypeError"
  | Some forecastData =>
      let solarEfficiency := 1.0 in
      let solarEfficiency :=
        solarEfficiency * ((100 - fc_cloudCover forecastData) / 100) in
      let optimalTemp := 25 in
      let tempDerating :=
        Math_max 0.7
          (1 - Math_max 0 (fc_temperature forecastData - optimalTemp) * 0.004) in
      let solarEfficiency := solarEfficiency * tempDerating in
      let solarEfficiency := solarEfficiency * solarBoost seasonData in
      let windEfficiency :=
        if fc_windSpeed forecastData <? 3 then 0.1
        else if fc_windSpeed forecastData >? 15 then 0.3
        else Math_min 1.0 (Math_pow (fc_windSpeed forecastData / 12) 2) in
      let windEfficiency :=
        windEfficiency * (1 + (25 - fc_temperature forecastData) * 0.005) in
      let loadMultiplier :=
        if fc_temperature forecastData >? 30
        then 1 + Math_pow ((fc_temperature forecastData - 30) / 10) 1.5
                 * heatLoad seasonData
        else if fc_temperature forecastData <? 15
        then 1 + (15 - fc_temperature forecastData) * 0.1 * heatLoad seasonData
        else 1.0 in
      Return {|
        solarEff := Math_max 0 (Math_min 1 solarEfficiency);
        windEff := Math_max 0 (Math_min 1 windEfficiency);
        loadMult := Math_max 0.3 (Math_min 2.5 loadMultiplier)
      |}
  end.

Definition calculateOptimalBatteryLevel
    (now : Date) (weather : WeatherData) (solarEff0 windEff0 loadMult0 : R) : R :=
  match forecast weather with
  | None => 60
  | Some fc =>
      ocatch
        (e1 <-? calculateSimplifiedEfficiency now (next1h fc) weather ;;
         e6 <-? calculateSimplifiedEfficiency now (next6h fc) weather ;;
         e24 <-? calculateSimplifiedEfficiency now (next24h fc) weather ;;
         let forecastEfficiencies := [e1; e6; e24] in
         let avgFutureGeneration :=
           fold_left (fun acc eff => acc + (solarEff eff + windEff eff) / 2)
                     forecastEfficiencies 0 / 3 in
         let avgFutureLoad :=
           fold_left (fun acc eff => acc + loadMult eff)
                     forecastEfficiencies 0 / 3 in
         Return
           (if avgFutureGeneration <? 0.4
            then Math_min 95 (70 + (1 - avgFutureGeneration) * 25)
            else if avgFutureLoad >? 1.3
            then Math_min 90 (60 + (avgFutureLoad - 1) * 30)
            else Math_max 40
                   (Math_min 80
                      (60 + (avgFutureGeneration - avgFutureLoad) * 20))))
        (fun error => 60)
  end.

Definition generateActionRecommendation
    (solarEff0 windEff0 loadMult0 : R) (weather : WeatherData) : Recommendation :=
  let totalRenewableEff := (solarEff0 + windEff0) / 2 in
  if (totalRenewableEff >? 0.7) && (loadMult0 <? 1.2) then charge_now
  else if (totalRenewableEff <? 0.3) || (loadMult0 >? 1.5) then prepare_for_peak
  else if totalRenewableEff <? loadMult0 * 0.6 then discharge_now
  else maintain.

Definition predictEnergyEfficiency
    (now : Date) (weather : WeatherData) (iotData : option IoTSensorData)
  : EnergyPrediction :=
  let season := getCurrentSeason now in
  let seasonData := rajashtanSeasonalFactors season in
  let solarEfficiency := 1.0 in
  let solarEfficiency := solarEfficiency * ((100 - cloudCover weather) / 100) in
  let optimalTemp := 25 in
  let tempDerating :=
    Math_max 0.7 (1 - Math_max 0 (temperature weather - optimalTemp) * 0.004) in
  let solarEfficiency := solarEfficiency * tempDerating in
  let solarEfficiency := solarEfficiency * Math_min 1.0 (uvIndex weather / 8) in
  let solarEfficiency := solarEfficiency * Math_min 1.0 (visibility weather / 10) in
  let solarEfficiency := solarEfficiency * solarBoost seasonData in
  let solarEfficiency :=
    match iotData with
    | Some iotData =>
        let solarEfficiency :=
          if panelTemperature iotData >? 60
          then solarEfficiency * 0.9 else solarEfficiency in
        if ambientLight iotData <? 20000
        then solarEfficiency * 0.8 else solarEfficiency
    | None => solarEfficiency
    end in
  let windEfficiency :=
    if windSpeed weather <? 3 then 0.1
    else if windSpeed weather >? 15 then 0.3
    else Math_min 1.0 (Math_pow (windSpeed weather / 12) 2) in
  let windEfficiency := windEfficiency * (1 + (25 - temperature weather) * 0.005) in
  let loadMultiplier :=
    if temperature weather >? 30
    then 1 + Math_pow ((temperature weather - 30) / 10) 1.5 * heatLoad seasonData
    else if temperature weather <? 15
    then 1 + (15 - temperature weather) * 0.1 * heatLoad seasonData
    else 1.0 in
  let loadMultiplier :=
    if humidity weather >? 70
    then loadMultiplier * (1 + (humidity weather - 70) * 0.005)
    else loadMultiplier in
  let batteryOptimalCharge :=
    calculateOptimalBatteryLevel now weather solarEfficiency windEfficiency
      loadMultiplier in
  let recommendation :=
    generateActionRecommendation solarEfficiency windEfficiency loadMultiplier
      weather in
  {|
    solarEfficiency := Math_max 0 (Math_min 1 solarEfficiency);
    windEfficiency := Math_max 0 (Math_min 1 windEfficiency);
    loadMultiplier := Math_max 0.3 (Math_min 2.5 loadMultiplier);
    batteryOptimalCharge := batteryOptimalCharge;
    recommendation := recommendation
  |}.

(* ================================================================== *)
(** ** The tick *)

Definition getDaytimeFactor (hour : R) : R :=
  if (hour <? 6) || (hour >? 18) then 0
  else Math_sin (((hour - 6) / 12) * Math_PI).

Definition getLoadPattern (hour : R) : R :=
  if hour <? 5 then 0.4
  else if hour <? 8 then 0.6
  else if hour <? 12 then 0.8
  else if hour <? 16 then 1.2
  else if hour <? 20 then 1.0
  else if hour <? 23 then 0.7
  else 0.5.

Record TickResult := {
  energyData : EnergyRecord;
  weatherData : WeatherData;
  prediction : EnergyPrediction;
  iotData : option IoTSensorData;
  result_mode : string
}.

Definition fallbackWeatherData : WeatherData := {|
  condition := sunny;
  temperature := 30;
  humidity := 50;
  windSpeed := 5;
  cloudCover := 20;
  uvIndex := 6;
  visibility := 10;
  forecast := Some {|
    next1h := Some {| fc_condition := sunny; fc_temperature := 30;
                      fc_windSpeed := 5; fc_cloudCover := 20 |};
    next6h := Some {| fc_condition := sunny; fc_temperature := 32;
                      fc_windSpeed := 6; fc_cloudCover := 15 |};
    next24h := Some {| fc_condition := partly_cloudy; fc_temperature := 28;
                       fc_windSpeed := 4; fc_cloudCover := 30 |}
  |}
|}.

Definition fallbackPrediction : EnergyPrediction := {|
  solarEfficiency := 0.8;
  windEfficiency := 0.6;
  loadMultiplier := 1.0;
  batteryOptimalCharge := 60;
  recommendation := maintain
|}.

Definition fallbackEnergyData (now : Date) : EnergyRecord := {|
  timestamp := toISOString now;
  solar_gen_kW := 200;
  wind_gen_kW := 60;
  load_demand_kW := 180;
  battery_soc_percent := 65;
  grid_import_kW := 0;
  grid_export_kW := 80;
  weather := sunny;
  forecast_label := Surplus;
  record_temperature := 30;
  carbon_saved_kg := 213.2
|}.

Section Tick.

(** The two methods the [try] block calls, as the tick sees them: calls
    on [this] that may return anything of their type, or throw.
    [this_generateRealisticWeatherData] may hand back [null]
    ([None]), which the tick tests for. *)
Variable this_generateRealisticWeatherData : R -> M (option WeatherData).
Variable this_predictEnergyEfficiency :
  WeatherData -> option IoTSensorData -> M EnergyPrediction.

(** Every [new Date()] of one tick reads the same [now]. *)
Variable now : Date.

Definition tick_body : M TickResult :=
  let hour := IZR (getHours now) in
  online <- read (fun this =>
    String.eqb (mode this) "online" && truthy (Some (weatherApiKey this))) ;;
  weatherData <-
    (if online : bool
     then this_generateRealisticWeatherData hour
     else this_generateRealisticWeatherData hour) ;;
  match weatherData with
  | None => throw "Invalid weather data generated"
  | Some weatherData =>
  match forecast weatherData with
  | None => throw "Invalid weather data generated"
  | Some _ =>
      offline <- read (fun this => String.eqb (mode this) "offline") ;;
      iotData <-
        (if offline : bool
         then d <- generateIoTSensorData weatherData ;; ret (Some d)
         else ret None) ;;
      prediction <- this_predictEnergyEfficiency weatherData iotData ;;
      let maxSolarCapacity := 300 in
      let maxWindCapacity := 100 in
      let baseLoad := 200 in
      let solar_gen_kW :=
        maxSolarCapacity * solarEfficiency prediction * getDaytimeFactor hour in
      let wind_gen_kW := maxWindCapacity * windEfficiency prediction in
      let load_demand_kW :=
        baseLoad * loadMultiplier prediction * getLoadPattern hour in
      let totalGeneration := solar_gen_kW + wind_gen_kW in
      let energyBalance := totalGeneration - load_demand_kW in
      let grid_import_kW := Math_max 0 (- energyBalance) in
      let grid_export_kW := Math_max 0 energyBalance in
      battery_soc_percent <-
        on_this (calculateBatteryLevel energyBalance
                   (batteryOptimalCharge prediction)
                   (recommendation prediction)) ;;
      let energyData := {|
        timestamp := toISOString now;
        solar_gen_kW := Math_round (solar_gen_kW * 100) / 100;
        wind_gen_kW := Math_round (wind_gen_kW * 100) / 100;
        load_demand_kW := Math_round (load_demand_kW * 100) / 100;
        battery_soc_percent := Math_round (battery_soc_percent * 100) / 100;
        grid_import_kW := Math_round (grid_import_kW * 100) / 100;
        grid_export_kW := Math_round (grid_export_kW * 100) / 100;
        weather := condition weatherData;
        forecast_label :=
          if energyBalance >? 20 then Surplus
          else if energyBalance <? -20 then Deficit else Balanced;
        record_temperature := temperature weatherData;
        carbon_saved_kg := Math_round (totalGeneration * 0.82 * 100) / 100
      |} in
      m <- read mode ;;
      ret {| energyData := energyData;
             weatherData := weatherData;
             prediction := prediction;
             iotData := iotData;
             result_mode := m |}
  end
  end.

Definition tick_fallback (error : string) : M TickResult :=
  offline <- read (fun this => String.eqb (mode this) "offline") ;;
  iotData <-
    (if offline : bool
     then d <- generateIoTSensorData fallbackWeatherData ;; ret (Some d)
     else ret None) ;;
  m <- read mode ;;
  ret {| energyData := fallbackEnergyData now;
         weatherData := fallbackWeatherData;
         prediction := fallbackPrediction;
         iotData := iotData;
         result_mode := m |}.

(** [generateEnhancedEnergyData] over the two methods it calls. *)
Definition generateEnhancedEnergyData_over : M TickResult :=
  try_catch tick_body tick_fallback.

End Tick.

(** The methods of the class, as the tick calls them: neither throws, and
    the synthesizer always returns an object. *)
Definition this_generateRealisticWeatherData (now : Date) (hour : R)
  : M (option WeatherData) :=
  w <- generateRealisticWeatherData now hour ;; ret (Some w).

Definition this_predictEnergyEfficiency (now : Date)
    (weather : WeatherData) (iotData : option IoTSensorData)
  : M EnergyPrediction :=
  ret (predictEnergyEfficiency now weather iotData).

Definition generateEnhancedEnergyData (now : Date) : M TickResult :=
  generateEnhancedEnergyData_over
    (this_generateRealisticWeatherData now)
    (this_predictEnergyEfficiency now)
    now.

(* ================================================================== *)
(** ** Advisories *)

Inductive Priority := high | medium | low.

(** The icons are emoji; each is named here. *)
Inductive Icon :=
  | icon_cloud | icon_thermometer | icon_wind | icon_tornado | icon_zap
  | icon_battery | icon_cycle | icon_sun | icon_check | icon_warning
  | icon_red_circle | icon_bulb.

Record Advice := {
  message : string;
  priority : Priority;
  icon : Icon;
  action : option string;
  weatherBased : bool
}.

(** The body of [generateSmartRecommendations] pushes onto the array
    [recommendations] and may throw half-way: what was pushed stays. *)
Definition W (A : Type) : Type := list Advice -> Outcome A * list Advice.

Definition wret {A} (a : A) : W A := fun l => (Return a, l).

Definition wthrow {A} (e : string) : W A := fun l => (Throw e, l).

Definition wbind {A B} (c : W A) (k : A -> W B) : W B :=
  fun l =>
    match c l with
    | (Return a, l') => k a l'
    | (Throw e, l') => (Throw e, l')
    end.

Definition push (a : Advice) : W unit := fun l => (Return tt, l ++ [a]).

Definition wcatch {A} (body : W A) (handler : string -> W A) : W A :=
  fun l =>
    match body l with
    | (Return a, l') => (Return a, l')
    | (Throw e, l') => handler e l'
    end.

Notation "x <-- c ;; k" := (wbind c (fun x => k))
  (at level 61, c at next level, right associativity) : method_scope.
Notation "c ;;; k" := (wbind c (fun _ => k))
  (at level 61, right associativity) : method_scope.

(** The degree sign, in UTF-8. *)
Definition degree_sign : string :=
  String (Ascii.ascii_of_nat 194) (String (Ascii.ascii_of_nat 176) EmptyString).

(** [energyData] has type [any]: reading a property of [null] or
    [undefined] ([None]) throws. *)
Definition read_battery_soc_percent (energyData : option EnergyRecord) : W R :=
  match energyData with
  | Some e => wret (battery_soc_percent e)
  | None => wthrow "TypeError"
  end.

Section SmartRecommendations.

(** The conversion of a number to text inside a template literal. *)
Variable Number_toString : R -> string.

Variable now : Date.
Variable this : Simulator.

Definition smart_recommendations_body
    (energyData : option EnergyRecord) (weatherData : WeatherData)
    (prediction : EnergyPrediction) : W unit :=
  let currentHour := IZR (getHours now) in
  (match forecast weatherData with
   | Some fc =>
       match next6h fc with
       | Some e6 =>
           if fc_cloudCover e6 >? 70 then
             soc <-- read_battery_soc_percent energyData ;;
             if soc <? 60 then
               push {|
                 message :=
                   "Heavy clouds expected in 6h ("
                   ++ Number_toString (fc_cloudCover e6)
                   ++ "% cover) - charge battery now";
                 priority := high;
                 icon := icon_cloud;
                 action :=
                   Some "Enable maximum battery charging while solar is available"%string;
                 weatherBased := true |}
             else wret tt
           else wret tt
       | None => wret tt
       end
   | None => wret tt
   end) ;;;
  (match forecast weatherData with
   | Some fc =>
       match next24h fc with
       | Some e24 =>
           if (fc_temperature e24 >? 40) && (currentHour <? 12) then
             push {|
               message :=
                 "Extreme heat expected tomorrow ("
                 ++ Number_toString (fc_temperature e24)
                 ++ degree_sign ++ "C) - prepare for high AC load";
               priority := high;
               icon := icon_thermometer;
               action :=
                 Some "Charge battery to 90%+ and schedule non-essential loads for night"%string;
               weatherBased := true |}
           else wret tt
       | None => wret tt
       end
   | None => wret tt
   end) ;;;
  (if windEfficiency prediction >? 0.8 then
     soc <-- read_battery_soc_percent energyData ;;
     if soc <? batteryOptimalCharge prediction then
       push {|
         message :=
           "Excellent wind conditions ("
           ++ Number_toString (windSpeed weatherData)
           ++ " m/s) - optimize charging";
         priority := medium;
         icon := icon_wind;
         action := Some "Utilize high wind generation for battery charging"%string;
         weatherBased := true |}
     else wret tt
   else wret tt) ;;;
  (if Condition_eqb (condition weatherData) dusty
      && (solarEfficiency prediction <? 0.6) then
     push {|
       message := "Dust storm reducing solar efficiency - clean panels when safe";
       priority := medium;
       icon := icon_tornado;
       action := Some "Schedule panel cleaning and rely more on wind/battery"%string;
       weatherBased := true |}
   else wret tt) ;;;
  (match recommendation prediction with
   | charge_now =>
       push {|
         message := "Optimal charging window - maximize renewable energy storage";
         priority := medium;
         icon := icon_zap;
         action := Some "Switch to maximum charge mode"%string;
         weatherBased := true |}
   | prepare_for_peak =>
       push {|
         message := "High load period approaching - ensure battery readiness";
         priority := high;
         icon := icon_battery;
         action :=
           Some ("Charge battery to "
                 ++ Number_toString (batteryOptimalCharge prediction) ++ "%")%string;
         weatherBased := true |}
   | discharge_now =>
       push {|
         message := "Low renewable generation - use stored battery power";
         priority := medium;
         icon := icon_cycle;
         action := Some "Switch to battery backup mode"%string;
         weatherBased := true |}
   | maintain => wret tt
   end) ;;;
  (if (solarEfficiency prediction <? 0.3)
      && negb (currentHour <? 10) && negb (currentHour >? 16) then
     push {|
       message :=
         "Solar efficiency very low ("
         ++ Number_toString (Math_round (solarEfficiency prediction * 100))
         ++ "%) during peak hours";
       priority := high;
       icon := icon_sun;
       action := Some "Check for panel obstructions or maintenance needs"%string;
       weatherBased := true |}
   else wret tt) ;;;
  (fun recommendations =>
     (if Nat.eqb (length recommendations) 0 then
        push {|
          message :=
            "Weather-optimized system running efficiently ("
            ++ mode this ++ " mode)";
          priority := low;
          icon := icon_check;
          action := Some "Continue current operation"%string;
          weatherBased := true |}
      else wret tt) recommendations).

Definition safe_mode_advice : Advice := {|
  message := "Energy system operating in safe mode";
  priority := low;
  icon := icon_warning;
  action := Some "Manual monitoring recommended"%string;
  weatherBased := false
|}.

Definition generateSmartRecommendations
    (energyData : option EnergyRecord) (weatherData : WeatherData)
    (prediction : EnergyPrediction) : list Advice :=
  snd (wcatch (smart_recommendations_body energyData weatherData prediction)
         (fun error => push safe_mode_advice)
         []).

End SmartRecommendations.

(* ================================================================== *)
(** ** The pure helpers of [src/utils/energyData.ts]

    The dashboard hook hands every record of a tick to
    [energySimulator.getCurrentMetrics] and [getAlerts]; the battery card
    and the socket path use [getBatteryStatus] and [getRecommendations].
    Divisions are read in the reals: the theorems below keep to inputs
    whose divisors are not zero. *)

Module EnergyDataSimulator.

Record CurrentMetrics := {
  solarGeneration : R;
  windGeneration : R;
  metrics_batteryLevel : R;
  gridUsage : R;
  currentLoad : R;
  totalGeneration : R;
  efficiency : R
}.

Definition getCurrentMetrics (data : EnergyRecord) : CurrentMetrics :=
  let totalGeneration := solar_gen_kW data + wind_gen_kW data in
  let efficiency :=
    if totalGeneration >? 0
    then Math_min 100
           ((totalGeneration / (totalGeneration + grid_import_kW data)) * 100)
    else 0 in
  {|
    solarGeneration := solar_gen_kW data;
    windGeneration := wind_gen_kW data;
    metrics_batteryLevel := battery_soc_percent data;
    gridUsage := grid_import_kW data;
    currentLoad := load_demand_kW data;
    totalGeneration := totalGeneration;
    efficiency := Math_round (efficiency * 100) / 100
  |}.

Inductive Status := Charging | Discharging | Standby.

Record BatteryStatus := {
  status : Status;
  rate : R;
  timeToFull : option R;
  timeToEmpty : option R
}.

Definition getBatteryStatus (data : EnergyRecord) : BatteryStatus :=
  let totalGeneration := solar_gen_kW data + wind_gen_kW data in
  let energyBalance := totalGeneration - load_demand_kW data in
  if energyBalance >? 10 then
    {| status := Charging;
       rate := Math_abs (energyBalance * 0.05);
       timeToFull :=
         Some ((100 - battery_soc_percent data) / (energyBalance * 0.05));
       timeToEmpty := None |}
  else if energyBalance <? -10 then
    {| status := Discharging;
       rate := Math_abs (energyBalance * 0.03);
       timeToFull := None;
       timeToEmpty :=
         Some (battery_soc_percent data / Math_abs (energyBalance * 0.03)) |}
  else
    {| status := Standby; rate := 0; timeToFull := None; timeToEmpty := None |}.

Record Recommended := {
  r_message : string;
  r_priority : Priority;
  r_icon : Icon;
  r_action : option string
}.

Definition getRecommendations (data : EnergyRecord) : list Recommended :=
  let recommendations := [] in
  let totalGeneration := solar_gen_kW data + wind_gen_kW data in
  let energyBalance := totalGeneration - load_demand_kW data in
  let recommendations :=
    if battery_soc_percent data <? 20
    then recommendations ++ [ {|
           r_message := "Battery critically low - immediate charging required";
           r_priority := high;
           r_icon := icon_red_circle;
           r_action := Some "Switch to grid power and charge battery"%string |} ]
    else recommendations in
  let recommendations :=
    if grid_import_kW data >? 100
    then recommendations ++ [ {|
           r_message := "High grid demand detected - reduce non-essential loads";
           r_priority := high;
           r_icon := icon_warning;
           r_action := Some "Turn off AC, lighting in unused areas"%string |} ]
    else recommendations in
  let recommendations :=
    if (battery_soc_percent data <? 40) && (energyBalance >? 10)
    then recommendations ++ [ {|
           r_message := "Surplus energy available - charge battery now";
           r_priority := medium;
           r_icon := icon_zap;
           r_action := Some "Enable battery charging mode"%string |} ]
    else recommendations in
  let recommendations :=
    if totalGeneration >? load_demand_kW data * 1.3
    then recommendations ++ [ {|
           r_message := "Excess solar/wind generation - run heavy equipment";
           r_priority := medium;
           r_icon := icon_bulb;
           r_action := Some "Start washing machines, water pumps"%string |} ]
    else recommendations in
  let recommendations :=
    if (grid_import_kW data >? 50) && (battery_soc_percent data >? 60)
    then recommendations ++ [ {|
           r_message := "Use battery power to reduce grid dependency";
           r_priority := medium;
           r_icon := icon_cycle;
           r_action := Some "Switch to battery backup mode"%string |} ]
    else recommendations in
  let recommendations :=
    if (solar_gen_kW data >? 200) && (battery_soc_percent data >? 80)
    then recommendations ++ [ {|
           r_message := "Peak solar generation - optimal performance";
           r_priority := low;
           r_icon := icon_sun;
           r_action := Some "System operating efficiently"%string |} ]
    else recommendations in
  let recommendations :=
    if (energyBalance >? -10) && (energyBalance <? 10)
    then recommendations ++ [ {|
           r_message := "Energy balanced - good optimization";
           r_priority := low;
           r_icon := icon_check;
           r_action := Some "Continue current settings"%string |} ]
    else recommendations in
  if Nat.ltb 0 (length recommendations) then recommendations
  else [ {| r_message := "Energy system operating efficiently";
            r_priority := low;
            r_icon := icon_check;
            r_action := Some "No action required"%string |} ].

Inductive AlertType := warning | error | info.

Record Alert := {
  alert_type : AlertType;
  alert_message : string
}.

(** [===] on numbers. *)
Definition strict_eq (a b : R) : bool := if Req_dec_T a b then true else false.

Definition getAlerts (now : Date) (data : EnergyRecord) : list Alert :=
  let alerts := [] in
  let alerts :=
    if battery_soc_percent data <? 20
    then alerts ++ [ {| alert_type := error;
                        alert_message := "Battery critically low" |} ]
    else alerts in
  let alerts :=
    if grid_import_kW data >? 100
    then alerts ++ [ {| alert_type := warning;
                        alert_message := "High grid demand detected" |} ]
    else alerts in
  let alerts :=
    if strict_eq (solar_gen_kW data) 0
       && negb (IZR (getHours now) <? 8) && negb (IZR (getHours now) >? 17)
    then alerts ++ [ {| alert_type := warning;
                        alert_message := "Solar generation below expected" |} ]
    else alerts in
  let alerts :=
    if load_demand_kW data >? 250
    then alerts ++ [ {| alert_type := info;
                        alert_message := "Peak load period detected" |} ]
    else alerts in
  alerts.

End EnergyDataSimulator.

(* ================================================================== *)
(** ** Vocabulary of the specification *)

(** [returns c st P]: run from [st], the method [c] returns normally, with
    a value and a final store that satisfy [P]. *)
Definition returns {A} (c : M A) (st : Store) (P : A -> Store -> Prop) : Prop :=
  exists a st', c st = (Return a, st') /\ P a st'.

(** [draws c P]: from every store [c] returns normally and leaves [this]
    as it was (it may only consume random draws), with a value in [P]. *)
Definition draws {A} (c : M A) (P : A -> Prop) : Prop :=
  forall st, returns c st (fun a st' => self st' = self st /\ P a).

(** The factors of the solar efficiency, multiplied out as the
    specification lists them: cloud, temperature derating, UV, visibility,
    season, and the two sensor adjustments. *)
Definition solar_factors
    (now : Date) (w : WeatherData) (iot : option IoTSensorData) : R :=
  (100 - cloudCover w) / 100
  * Rmax 0.7 (1 - Rmax 0 (temperature w - 25) * 0.004)
  * Rmin 1 (uvIndex w / 8)
  * Rmin 1 (visibility w / 10)
  * solarBoost (rajashtanSeasonalFactors (getCurrentSeason now))
  * match iot with
    | None => 1
    | Some d =>
        (if Rlt_dec 60 (panelTemperature d) then 0.9 else 1)
        * (if Rlt_dec (ambientLight d) 20000 then 0.8 else 1)
    end.

(** The wind curve scaled by the air-density proxy. *)
Definition wind_factors (w : WeatherData) : R :=
  (if Rlt_dec (windSpeed w) 3 then 0.1
   else if Rlt_dec 15 (windSpeed w) then 0.3
   else Rmin 1 ((windSpeed w / 12) * (windSpeed w / 12)))
  * (1 + (25 - temperature w) * 0.005).

(** The temperature load scaled by the humidity load. *)
Definition load_factors (now : Date) (w : WeatherData) : R :=
  let heat := heatLoad (rajashtanSeasonalFactors (getCurrentSeason now)) in
  (if Rlt_dec 30 (temperature w)
   then 1 + Rpower ((temperature w - 30) / 10) 1.5 * heat
   else if Rlt_dec (temperature w) 15
   then 1 + (15 - temperature w) * 0.1 * heat
   else 1)
  * (if Rlt_dec 70 (humidity w) then 1 + (humidity w - 70) * 0.005 else 1).

(** The signed balance of a tick, from its prediction: generation less
    demand, at the nameplate capacities 300, 100 and 200 kW. *)
Definition energyBalance_of (now : Date) (p : EnergyPrediction) : R :=
  let hour := IZR (getHours now) in
  300 * solarEfficiency p * getDaytimeFactor hour
  + 100 * windEfficiency p
  - 200 * loadMultiplier p * getLoadPattern hour.

(** The level invariant of the battery update. *)
Definition level_in_band (this : Simulator) : Prop :=
  18.5 < batteryLevel this < 97.

(** The ways weather synthesis can fail a tick: it throws, it returns no
    object, or the object lacks its forecast. *)
Definition synthesis_fails
    (gen : R -> M (option WeatherData)) (now : Date) (st : Store) : Prop :=
  (exists e st1, gen (IZR (getHours now)) st = (Throw e, st1)) \/
  (exists st1, gen (IZR (getHours now)) st = (Return None, st1)) \/
  (exists w st1, gen (IZR (getHours now)) st = (Return (Some w), st1) /\
                 forecast w = None).

(** Prediction fails when it throws whatever it is given. *)
Definition prediction_fails
    (predict : WeatherData -> option IoTSensorData -> M EnergyPrediction) : Prop :=
  forall w iot st, exists e st', predict w iot st = (Throw e, st').

(** The documented fallback result. *)
Definition is_fallback (now : Date) (r : TickResult) : Prop :=
  energyData r = fallbackEnergyData now /\
  weatherData r = fallbackWeatherData /\
  prediction r = fallbackPrediction.

(** *** Sample inputs *)

Definition july_night : Date :=
  {| getMonth := 6; getHours := 3; toISOString := "2025-07-01T03:00:00.000Z" |}.

Definition may_evening : Date :=
  {| getMonth := 4; getHours := 18; toISOString := "2025-05-01T18:00:00.000Z" |}.

(** The exported instance on a constant random source. *)
Definition fresh_store : Store :=
  {| self := weatherBasedEnergySimulator; entropy := fun _ => 0.5 |}.

(** A calm sample at 30 degrees, the rest as in the fallback sample. *)
Definition calm_warm_sample : WeatherData := {|
  condition := sunny; temperature := 30; humidity := 50; windSpeed := 2;
  cloudCover := 20; uvIndex := 6; visibility := 10;
  forecast := forecast fallbackWeatherData
|}.

(** A synthesizer whose call throws. *)
Definition failing_synthesizer (hour : R) : M (option WeatherData) :=
  throw "weather service unavailable".

(** *** Draws from a proper random source *)

(** Every draw still to come lies in [[0,1)], as [Math.random()] promises. *)
Definition unit_source (st : Store) : Prop :=
  forall n, 0 <= entropy st n < 1.

(** [udraws c P]: from a proper source, [c] returns normally, leaves [this]
    as it was and the source proper, with a value in [P]. *)
Definition udraws {A} (c : M A) (P : A -> Prop) : Prop :=
  forall st,
    unit_source st ->
    returns c st (fun a st' => self st' = self st /\ unit_source st' /\ P a).

(** The conditions a forecast entry may carry, by season. *)
Definition forecast_condition (season : Season) (c : Condition) : Prop :=
  match season with
  | monsoon => c = rainy \/ c = cloudy
  | summer => c = sunny \/ c = dusty
  | winter | postMonsoon => c = sunny \/ c = partly_cloudy
  end.

(** What the three entries of a synthesized forecast are. *)
Definition well_forecast (season : Season) (hour : R) (fc : Forecast) : Prop :=
  exists e1 e6 e24,
    next1h fc = Some e1 /\ next6h fc = Some e6 /\ next24h fc = Some e24 /\
    forecast_condition season (fc_condition e1) /\
    forecast_condition season (fc_condition e6) /\
    forecast_condition season (fc_condition e24) /\
    3 <= fc_windSpeed e1 <= 8 /\ 20 <= fc_cloudCover e1 <= 60 /\
    4 <= fc_windSpeed e6 <= 10 /\ 10 <= fc_cloudCover e6 <= 40 /\
    3 <= fc_windSpeed e24 <= 10 /\ 25 <= fc_cloudCover e24 <= 60 /\
    fc_temperature e1
    = Math_round (dailyTemperature season (hour + 1) * 10) / 10 /\
    fc_temperature e6
    = Math_round (dailyTemperature season (hour + 6) * 10) / 10 /\
    fc_temperature e24 = getSeasonalBaseTemperature season.

(** The cloud cover and condition drawn for a season, before rounding and
    before the night override. *)
Definition seasonal_draw (season : Season) (d : R * Condition) : Prop :=
  match season with
  | monsoon =>
      60 <= fst d <= 100 /\
      (snd d = cloudy \/ snd d = partly_cloudy \/ snd d = rainy)
  | summer =>
      0 <= fst d <= 30 /\
      (snd d = sunny \/ snd d = partly_cloudy \/ snd d = dusty)
  | winter | postMonsoon =>
      0 <= fst d <= 50 /\
      (snd d = sunny \/ snd d = partly_cloudy \/ snd d = cloudy)
  end.

(** What the season fixes of a synthesized sample. *)
Definition seasonal_ranges (season : Season) (w : WeatherData) : Prop :=
  match season with
  | monsoon =>
      60 <= cloudCover w <= 100 /\ 70 <= humidity w <= 95 /\
      2 <= windSpeed w <= 7 /\
      (condition w = cloudy \/ condition w = partly_cloudy \/
       condition w = rainy \/ condition w = clear_night)
  | summer =>
      0 <= cloudCover w <= 30 /\ 20 <= humidity w <= 50 /\
      3 <= windSpeed w <= 11 /\
      (condition w = sunny \/ condition w = partly_cloudy \/
       condition w = dusty \/ condition w = clear_night)
  | winter | postMonsoon =>
      0 <= cloudCover w <= 50 /\ 40 <= humidity w <= 75 /\
      2 <= windSpeed w <= 7 /\
      (condition w = sunny \/ condition w = partly_cloudy \/
       condition w = cloudy \/ condition w = clear_night)
  end.

(** The visibility that goes with a condition. *)
Definition visibility_range (c : Condition) (v : R) : Prop :=
  match c with
  | dusty => 2 <= v <= 5
  | rainy => 1 <= v <= 3
  | _ => 8 <= v <= 15
  end.

(** Everything a synthesized sample is known to satisfy. *)
Definition well_synthesized (season : Season) (hour : R) (w : WeatherData) : Prop :=
  seasonal_ranges season w /\
  (condition w = clear_night <-> hour < 6 \/ hour > 19) /\
  1 <= uvIndex w <= 11 /\
  (condition w <> sunny -> condition w <> partly_cloudy -> uvIndex w = 2) /\
  visibility_range (condition w) (visibility w) /\
  getSeasonalBaseTemperature season - getTemperatureRange season - 1.5
    <= temperature w
    <= getSeasonalBaseTemperature season + getTemperatureRange season + 1.5 /\
  exists fc, forecast w = Some fc /\ well_forecast season hour fc.

(** What a synthesized sensor reading is known to satisfy. *)
Definition well_sensed (w : WeatherData) (d : IoTSensorData) : Prop :=
  panelTemperature d
  = Math_round ((temperature w + 15 + uvIndex w * 2) * 10) / 10 /\
  panelTilt d = 30 /\
  (exists z, windTurbineRPM d = IZR z) /\
  windSpeed w * 25 - 0.5 < windTurbineRPM d <= windSpeed w * 25 + 50.5 /\
  match condition w with
  | sunny => 80000 <= ambientLight d <= 100000
  | partly_cloudy => 40000 <= ambientLight d <= 70000
  | cloudy => 10000 <= ambientLight d <= 25000
  | dusty | rainy | clear_night => ambientLight d = 500
  end /\
  47 <= batteryVoltage d < 49 /\
  94 <= inverterEfficiency d < 98 /\
  0.85 <= loadPowerFactor d < 0.95.

(** The record of a tick, from its sample, its prediction and the battery
    level the update returned. *)
Definition energyData_of
    (now : Date) (w : WeatherData) (p : EnergyPrediction) (soc : R)
  : EnergyRecord :=
  let hour := IZR (getHours now) in
  let solar := 300 * solarEfficiency p * getDaytimeFactor hour in
  let wind := 100 * windEfficiency p in
  let load := 200 * loadMultiplier p * getLoadPattern hour in
  let balance := solar + wind - load in
  {|
    timestamp := toISOString now;
    solar_gen_kW := Math_round (solar * 100) / 100;
    wind_gen_kW := Math_round (wind * 100) / 100;
    load_demand_kW := Math_round (load * 100) / 100;
    battery_soc_percent := Math_round (soc * 100) / 100;
    grid_import_kW := Math_round (Math_max 0 (- balance) * 100) / 100;
    grid_export_kW := Math_round (Math_max 0 balance * 100) / 100;
    weather := condition w;
    forecast_label :=
      if balance >? 20 then Surplus
      else if balance <? -20 then Deficit else Balanced;
    record_temperature := temperature w;
    carbon_saved_kg := Math_round ((solar + wind) * 0.82 * 100) / 100
  |}.

(** The sensor step of a tick: a reading in offline mode, none otherwise. *)
Definition sensor_step
    (w : WeatherData) (st1 : Store) (iot : option IoTSensorData) (st2 : Store)
  : Prop :=
  (mode (self st1) = "offline"%string /\
   exists d, iot = Some d /\ generateIoTSensorData w st1 = (Return d, st2)) \/
  (mode (self st1) <> "offline"%string /\ iot = None /\ st2 = st1).

(** *** Advisories *)

(** The entry pushed when no rule has fired. *)
Definition default_advice (this : Simulator) : Advice := {|
  message :=
    "Weather-optimized system running efficiently (" ++ mode this ++ " mode)";
  priority := low;
  icon := icon_check;
  action := Some "Continue current operation"%string;
  weatherBased := true
|}.

(** An entry pushed by a rule: weather based, and of high or medium
    priority. *)
Definition urgent (a : Advice) : Prop :=
  weatherBased a = true /\ priority a <> low.

(** A step that goes through and appends at most one urgent entry. *)
Definition rule_step (c : W unit) : Prop :=
  forall l, exists l2,
    c l = (Return tt, l ++ l2) /\ (length l2 <= 1)%nat /\ Forall urgent l2.

(** What a finished list of advisories is: between one and six urgent
    entries, or the default entry alone. *)
Definition advisories (this : Simulator) (l : list Advice) : Prop :=
  (Forall urgent l /\ (1 <= length l <= 6)%nat) \/ l = [default_advice this].

(** The rest of the body, run on at most [n] urgent entries, goes through,
    only appends, and ends on a finished list. *)
Definition concludes (this : Simulator) (n : nat) (k : W unit) : Prop :=
  forall l,
    (length l <= n)%nat -> Forall urgent l ->
    exists l2, k l = (Return tt, l ++ l2) /\ advisories this (l ++ l2).

(** The rest of the body never ends normally on an empty list. *)
Definition ends_nonempty (k : W unit) : Prop :=
  forall l,
    match k l with
    | (Return _, l') => l' <> []
    | (Throw _, _) => True
    end.

Definition priority_rank (p : Priority) : nat :=
  match p with
  | high => 0
  | medium => 1
  | low => 2
  end.

(** A list of numbers that starts at [n] or above and never steps down. *)
Fixpoint nondecreasing_from (n : nat) (l : list nat) : bool :=
  match l with
  | [] => true
  | m :: l => Nat.leb n m && nondecreasing_from m l
  end.

(** The store after one tick per date, first date first. *)
Fixpoint run_ticks (dates : list Date) (st : Store) : Store :=
  match dates with
  | [] => st
  | now :: dates => run_ticks dates (snd (generateEnhancedEnergyData now st))
  end.

(* ================================================================== *)
(** * Properties *)

(** ** Comparisons and clamps *)

Lemma lt_true (a b : R) : (a <? b) = true <-> a < b.
Proof.
  unfold JS.lt; destruct (Rlt_dec a b); split; intros; auto; discriminate.
Qed.

Lemma lt_false (a b : R) : (a <? b) = false <-> b <= a.
Proof.
  unfold JS.lt; destruct (Rlt_dec a b); split; intros; auto;
    try discriminate; lra.
Qed.

Lemma gt_true (a b : R) : (a >? b) = true <-> b < a.
Proof. apply lt_true. Qed.

Lemma gt_false (a b : R) : (a >? b) = false <-> a <= b.
Proof. apply lt_false. Qed.

(** Case analysis on every comparison of the goal, each branch keeping the
    order fact it stands for. *)
Ltac cases_cmp :=
  repeat match goal with
    | |- context [JS.gt ?a ?b] =>
        let E := fresh "E" in
        destruct (JS.gt a b) eqn:E;
        [apply gt_true in E | apply gt_false in E]
    | |- context [JS.lt ?a ?b] =>
        let E := fresh "E" in
        destruct (JS.lt a b) eqn:E;
        [apply lt_true in E | apply lt_false in E]
    end; cbn [andb orb negb].

(** Case analysis on every [min], [max] and absolute value of the goal,
    innermost first. *)
Ltac cases_minmax :=
  unfold Math_min, Math_max, Math_abs, Rmin, Rmax, Rabs in *;
  repeat match goal with
    | |- context [Rcase_abs ?a] => destruct (Rcase_abs a)
    | |- context [Rle_dec ?a ?b] =>
        lazymatch a with context [Rle_dec _ _] => fail | _ => idtac end;
        lazymatch b with context [Rle_dec _ _] => fail | _ => idtac end;
        destruct (Rle_dec a b)
    end.

Lemma clamp_bounds (lo hi x : R) :
  lo <= hi -> lo <= Math_max lo (Math_min hi x) <= hi.
Proof. intros; cases_minmax; lra. Qed.

Lemma clamp_id (lo hi x : R) :
  lo <= x <= hi -> Math_max lo (Math_min hi x) = x.
Proof. intros; cases_minmax; lra. Qed.

(** ** The battery update *)

Section Battery.

Variables (energyBalance optimalLevel : R) (this : Simulator).

Let level := batteryLevel this.
Let stored (r : Recommendation) :=
  batteryLevel (snd (calculateBatteryLevel energyBalance optimalLevel r this)).

Lemma returned_is_clamped r :
  fst (calculateBatteryLevel energyBalance optimalLevel r this)
  = Math_max 5 (Math_min 100 (stored r)).
Proof. reflexivity. Qed.

Lemma stored_charge_now :
  stored charge_now =
  if (energyBalance >? 0) && (level <? optimalLevel)
  then level + Math_min 2 (energyBalance * 0.1) else level.
Proof.
  unfold stored, level, calculateBatteryLevel; cbn [snd].
  destruct (_ && _); reflexivity.
Qed.

Lemma stored_discharge_now :
  stored discharge_now =
  if (energyBalance <? 0) && (level >? 20)
  then level - Math_min 1.5 (Math_abs energyBalance * 0.05) else level.
Proof.
  unfold stored, level, calculateBatteryLevel; cbn [snd].
  destruct (_ && _); reflexivity.
Qed.

Lemma stored_prepare_for_peak :
  stored prepare_for_peak =
  if (energyBalance >? 10) && (level <? 90)
  then level + Math_min (2 * 1.5) (energyBalance * 0.08) else level.
Proof.
  unfold stored, level, calculateBatteryLevel; cbn [snd].
  destruct (_ && _); reflexivity.
Qed.

Lemma stored_maintain :
  stored maintain =
  if (energyBalance >? 20) && (level <? 80)
  then level + Math_min 1 (energyBalance * 0.03)
  else if (energyBalance <? -20) && (level >? 30)
  then level - Math_min 1 (Math_abs energyBalance * 0.02) else level.
Proof.
  unfold stored, level, calculateBatteryLevel; cbn [snd].
  destruct (_ && _); [reflexivity|]. destruct (_ && _); reflexivity.
Qed.

End Battery.

(** C1. The battery update implements the four-case table: under
    [charge_now] the stored level rises by [min 2 (balance * 0.1)] when
    the balance is positive and the level is below the optimal one; under
    [discharge_now] it falls by [min 1.5 (|balance| * 0.05)] when the
    balance is negative and the level above 20; under [prepare_for_peak]
    it rises by [min 3 (balance * 0.08)] when the balance exceeds 10 and
    the level is below 90; under [maintain] it rises by
    [min 1 (balance * 0.03)] when the balance exceeds 20 and the level is
    below 80, and falls by [min 1 (|balance| * 0.02)] when the balance is
    below -20 and the level above 30; otherwise it is unchanged. From
    level 60, balance 50, optimal 80 and [charge_now] give 62; from level
    25, balance -40 and [discharge_now] give 23.5. *)
Theorem calculateBatteryLevel_table :
  forall (energyBalance optimalLevel : R) (this : Simulator),
    let level := batteryLevel this in
    let stored r :=
      batteryLevel (snd (calculateBatteryLevel energyBalance optimalLevel r this)) in
    (* charge_now *)
    (energyBalance > 0 /\ level < optimalLevel ->
       stored charge_now = level + Rmin 2 (energyBalance * 0.1)) /\
    (~ (energyBalance > 0 /\ level < optimalLevel) ->
       stored charge_now = level) /\
    (* discharge_now *)
    (energyBalance < 0 /\ level > 20 ->
       stored discharge_now = level - Rmin 1.5 (Rabs energyBalance * 0.05)) /\
    (~ (energyBalance < 0 /\ level > 20) ->
       stored discharge_now = level) /\
    (* prepare_for_peak *)
    (energyBalance > 10 /\ level < 90 ->
       stored prepare_for_peak = level + Rmin 3 (energyBalance * 0.08)) /\
    (~ (energyBalance > 10 /\ level < 90) ->
       stored prepare_for_peak = level) /\
    (* maintain *)
    (energyBalance > 20 /\ level < 80 ->
       stored maintain = level + Rmin 1 (energyBalance * 0.03)) /\
    (energyBalance < -20 /\ level > 30 ->
       stored maintain = level - Rmin 1 (Rabs energyBalance * 0.02)) /\
    (~ (energyBalance > 20 /\ level < 80) ->
     ~ (energyBalance < -20 /\ level > 30) ->
       stored maintain = level) /\
    (* the two scenarios, on the returned value and on the stored one *)
    (level = 60 ->
       calculateBatteryLevel 50 80 charge_now this
       = (62, set_batteryLevel 62 this)) /\
    (level = 25 ->
       calculateBatteryLevel (-40) optimalLevel discharge_now this
       = (23.5, set_batteryLevel 23.5 this)).
Proof.
  intros energyBalance optimalLevel this level stored.
  subst stored; cbv beta.
  rewrite stored_charge_now, stored_discharge_now, stored_prepare_for_peak,
    stored_maintain.
  fold level.
  repeat split; intros; cases_cmp; unfold Math_min, Math_abs;
    try reflexivity; try lra;
    try (replace (2 * 1.5) with 3 by lra; reflexivity).
  - unfold calculateBatteryLevel. fold level. rewrite H.
    assert (A : (50 >? 0) = true) by (apply gt_true; lra).
    assert (B : (60 <? 80) = true) by (apply lt_true; lra).
    rewrite A, B; cbn [andb snd fst].
    assert (V : 60 + Math_min 2 (50 * 0.1) = 62) by (cases_minmax; lra).
    rewrite V. f_equal. unfold set_batteryLevel; cbn. cases_minmax; lra.
  - unfold calculateBatteryLevel. fold level. rewrite H.
    assert (A : (-40 <? 0) = true) by (apply lt_true; lra).
    assert (B : (25 >? 20) = true) by (apply gt_true; lra).
    rewrite A, B; cbn [andb snd fst].
    assert (V : 25 - Math_min 1.5 (Math_abs (-40) * 0.05) = 23.5)
      by (cases_minmax; lra).
    rewrite V. f_equal. unfold set_batteryLevel; cbn. cases_minmax; lra.
Qed.

(** The exported instance run through the first scenario. *)
Lemma calculateBatteryLevel_table_witness :
  calculateBatteryLevel 50 80 charge_now weatherBasedEnergySimulator
  = (62, set_batteryLevel 62 weatherBasedEnergySimulator).
Proof.
  destruct (calculateBatteryLevel_table 50 80 weatherBasedEnergySimulator)
    as (_ & _ & _ & _ & _ & _ & _ & _ & _ & H & _).
  apply H. reflexivity.
Defined.

(** ** Reasoning about methods *)

Lemma returns_ret {A} (a : A) st (P : A -> Store -> Prop) :
  P a st -> returns (ret a) st P.
Proof. intros; exists a, st; split; auto. Qed.

Lemma returns_bind {A B} (c : M A) (k : A -> M B) st
    (Q : A -> Store -> Prop) (P : B -> Store -> Prop) :
  returns c st Q ->
  (forall a st', Q a st' -> returns (k a) st' P) ->
  returns (bind c k) st P.
Proof.
  intros (a & st' & E & HQ) Hk.
  destruct (Hk a st' HQ) as (b & st'' & E' & HP).
  exists b, st''; split; auto.
  unfold bind; rewrite E; exact E'.
Qed.

Lemma returns_weaken {A} (c : M A) st (P Q : A -> Store -> Prop) :
  returns c st P -> (forall a st', P a st' -> Q a st') -> returns c st Q.
Proof. intros (a & st' & E & HP) H; exists a, st'; auto. Qed.

Lemma returns_random st :
  returns Math_random st
    (fun a st' => a = entropy st 0%nat /\ self st' = self st).
Proof. eexists _, _; split; [reflexivity|]; split; reflexivity. Qed.

Lemma returns_read {A} (f : Simulator -> A) st :
  returns (read f) st (fun a st' => a = f (self st) /\ st' = st).
Proof. eexists _, _; split; [reflexivity|]; split; reflexivity. Qed.

Lemma draws_ret {A} (a : A) (P : A -> Prop) : P a -> draws (ret a) P.
Proof. intros H st; apply returns_ret; auto. Qed.

Lemma draws_bind {A B} (c : M A) (k : A -> M B) (Q : A -> Prop) (P : B -> Prop) :
  draws c Q -> (forall a, Q a -> draws (k a) P) -> draws (bind c k) P.
Proof.
  intros Hc Hk st.
  apply returns_bind with (Q := fun a st' => self st' = self st /\ Q a).
  - apply Hc.
  - intros a st' [E HQ].
    eapply returns_weaken; [apply (Hk a HQ)|].
    cbv beta; intros b st'' [E' HP]; split; [congruence | exact HP].
Qed.

Lemma draws_random : draws Math_random (fun _ => True).
Proof.
  intros st; eapply returns_weaken; [apply returns_random|].
  cbv beta; intros a st' [_ E]; auto.
Qed.

Lemma draws_weaken {A} (c : M A) (P Q : A -> Prop) :
  draws c P -> (forall a, P a -> Q a) -> draws c Q.
Proof.
  intros Hc H st; eapply returns_weaken; [apply Hc|].
  cbv beta; intros a st' [E HP]; auto.
Qed.

Lemma draws_if {A} (b : bool) (c1 c2 : M A) (P : A -> Prop) :
  draws c1 P -> draws c2 P -> draws (if b then c1 else c2) P.
Proof. destruct b; auto. Qed.

(** A draw followed by a pure function of it. *)
Lemma draws_random_then {A} (f : R -> A) :
  draws (bind Math_random (fun r => ret (f r))) (fun _ => True).
Proof.
  eapply draws_bind; [apply draws_random|]; intros; apply draws_ret; exact I.
Qed.

Create HintDb draws.
#[local] Hint Resolve draws_random draws_random_then draws_if : draws.

Lemma draws_getConditionForHour season hour :
  draws (getConditionForHour season hour) (fun _ => True).
Proof. unfold getConditionForHour; auto with draws. Qed.

Lemma draws_generateShortTermForecast hour season :
  draws (generateShortTermForecast hour season) (fun _ => True).
Proof.
  unfold generateShortTermForecast.
  repeat (eapply draws_bind;
          [first [apply draws_getConditionForHour | apply draws_random]
          | intros ? _ ]).
  apply draws_ret; exact I.
Qed.

(** Discharge [draws c (fun _ => True)] for a method built from draws,
    conditionals and pure code. *)
Ltac draws_trivial :=
  repeat first
    [ apply draws_random
    | apply draws_getConditionForHour
    | apply draws_generateShortTermForecast
    | apply draws_if
    | apply draws_ret; exact I
    | eapply draws_bind with (Q := fun _ => True); [ | intros ? _ ] ].

(** What a synthesized sample always is: it carries its forecast, its
    condition is [clear_night] in the night hours, and its temperature is
    the daily curve plus the jitter of the first draw, rounded. *)
Lemma generateRealisticWeatherData_returns now hour st :
  returns (generateRealisticWeatherData now hour) st
    (fun w st' =>
       self st' = self st /\
       (exists f, forecast w = Some f) /\
       ((hour <? 6) || (hour >? 19) = true -> condition w = clear_night) /\
       temperature w =
         Math_round ((dailyTemperature (getCurrentSeason now) hour
                      + (entropy st 0%nat - 0.5) * 3) * 10) / 10).
Proof.
  unfold generateRealisticWeatherData.
  eapply returns_bind; [apply returns_random|].
  cbv beta; intros jitter st1 [-> E1].
  eapply returns_weaken.
  - apply draws_bind with
      (Q := fun _ => True)
      (P := fun w =>
         (exists f, forecast w = Some f) /\
         ((hour <? 6) || (hour >? 19) = true -> condition w = clear_night) /\
         temperature w =
           Math_round ((dailyTemperature (getCurrentSeason now) hour
                        + (entropy st 0%nat - 0.5) * 3) * 10) / 10).
    + draws_trivial.
    + intros drawn _.
      eapply draws_bind with (Q := fun _ => True); [draws_trivial|].
      intros windSpeed0 _.
      eapply draws_bind with (Q := fun _ => True); [draws_trivial|].
      intros humidity0 _.
      eapply draws_bind with (Q := fun _ => True); [draws_trivial|].
      intros visibility0 _.
      eapply draws_bind with (Q := fun _ => True); [draws_trivial|].
      intros forecast0 _.
      apply draws_ret; cbn [forecast condition temperature].
      split; [eauto|]. split; [|reflexivity].
      intros ->; reflexivity.
  - cbv beta; intros w st' (E & H); split; [congruence | exact H].
Qed.

(** ** Weather synthesis *)

(** C5. In the night hours, before 6 or after 19, the synthesized sample
    has condition [clear_night], whatever the date (hence the season) and
    whatever the random source yields. *)
Theorem generateRealisticWeatherData_night :
  forall (now : Date) (hour : R) (st : Store),
    hour < 6 \/ hour > 19 ->
    exists w st',
      generateRealisticWeatherData now hour st = (Return w, st') /\
      condition w = clear_night.
Proof.
  intros now hour st H.
  destruct (generateRealisticWeatherData_returns now hour st)
    as (w & st' & E & _ & _ & Hnight & _).
  exists w, st'; split; [exact E|].
  apply Hnight.
  destruct H as [H | H].
  - apply lt_true in H; rewrite H; reflexivity.
  - apply gt_true in H; rewrite H; apply orb_true_r.
Qed.

(** A July night at three o'clock, on a constant random source. *)
Lemma generateRealisticWeatherData_night_witness :
  exists w st',
    generateRealisticWeatherData july_night 3 fresh_store = (Return w, st') /\
    condition w = clear_night.
Proof.
  apply generateRealisticWeatherData_night.
  left; lra.
Defined.

(** Every season has its months. *)
Lemma getCurrentSeason_onto (season : Season) :
  exists now, getCurrentSeason now = season.
Proof.
  destruct season;
    [ exists {| getMonth := 0; getHours := 0; toISOString := EmptyString |}
    | exists may_evening
    | exists july_night
    | exists {| getMonth := 9; getHours := 0; toISOString := EmptyString |} ];
    reflexivity.
Qed.

Lemma dailyTemperature_noon season :
  dailyTemperature season 12
  = getSeasonalBaseTemperature season + getTemperatureRange season.
Proof.
  unfold dailyTemperature, Math_sin, Math_PI.
  replace ((12 - 6) / 12 * PI) with (PI / 2) by lra.
  rewrite sin_PI2; lra.
Qed.

Lemma dailyTemperature_18 season :
  dailyTemperature season 18 = getSeasonalBaseTemperature season.
Proof.
  unfold dailyTemperature, Math_sin, Math_PI.
  replace ((18 - 6) / 12 * PI) with PI by lra.
  rewrite sin_PI; lra.
Qed.

Lemma getTemperatureRange_pos season : 0 < getTemperatureRange season.
Proof. destruct season; simpl; lra. Qed.

Lemma dailyTemperature_le_noon season hour :
  dailyTemperature season hour <= dailyTemperature season 12.
Proof.
  rewrite dailyTemperature_noon.
  unfold dailyTemperature, Math_sin.
  pose proof (SIN_bound ((hour - 6) / 12 * Math_PI)) as [_ B].
  pose proof (getTemperatureRange_pos season).
  nra.
Qed.

(** Around hour 18, from 16 to 20, the sine is at most one half. *)
Lemma dailyTemperature_evening season hour :
  16 <= hour <= 20 ->
  dailyTemperature season hour
  <= getSeasonalBaseTemperature season + getTemperatureRange season / 2.
Proof.
  intros [Hlo Hhi].
  unfold dailyTemperature, Math_sin, Math_PI.
  pose proof PI_RGT_0 as Hpi.
  assert (S : sin ((hour - 6) / 12 * PI) <= 1 / 2).
  { rewrite <- sin_PI6, <- (sin_PI_x (PI / 6)).
    apply sin_decr_1; nra. }
  pose proof (getTemperatureRange_pos season).
  nra.
Qed.

(** C8, as the code has it. For every season the daily curve
    [base + sin ((hour - 6) / 12 * PI) * range] is greatest at hour 12,
    where it is [base + range]; at hour 18 it is back at [base], and from
    16 to 20 it stays at or below [base + range / 2]. The synthesized
    temperature is the curve plus a jitter in [[-1.5, 1.5)], rounded to one
    decimal. *)
Theorem dailyTemperature_peaks_at_noon :
  forall (now : Date) (hour : R) (st : Store),
    0 <= entropy st 0%nat < 1 ->
    (forall season h,
       dailyTemperature season h <= dailyTemperature season 12) /\
    (forall season,
       dailyTemperature season 12
       = getSeasonalBaseTemperature season + getTemperatureRange season) /\
    (forall season,
       dailyTemperature season 18 = getSeasonalBaseTemperature season) /\
    (forall season, dailyTemperature season 18 < dailyTemperature season 12) /\
    (forall season h,
       16 <= h <= 20 ->
       dailyTemperature season h
       <= getSeasonalBaseTemperature season + getTemperatureRange season / 2) /\
    exists w st' jitter,
      generateRealisticWeatherData now hour st = (Return w, st') /\
      -1.5 <= jitter < 1.5 /\
      temperature w =
        Math_round ((dailyTemperature (getCurrentSeason now) hour + jitter) * 10)
        / 10.
Proof.
  intros now hour st Hr.
  split; [intros; apply dailyTemperature_le_noon|].
  split; [intros; apply dailyTemperature_noon|].
  split; [intros; apply dailyTemperature_18|].
  split.
  { intros season; rewrite dailyTemperature_18, dailyTemperature_noon.
    pose proof (getTemperatureRange_pos season); lra. }
  split; [intros; apply dailyTemperature_evening; assumption|].
  destruct (generateRealisticWeatherData_returns now hour st)
    as (w & st' & E & _ & _ & _ & T).
  exists w, st', ((entropy st 0%nat - 0.5) * 3).
  split; [exact E|]. split; [lra | exact T].
Qed.

Lemma dailyTemperature_peaks_at_noon_witness :
  exists w st' jitter,
    generateRealisticWeatherData may_evening 18 fresh_store = (Return w, st') /\
    -1.5 <= jitter < 1.5 /\
    temperature w =
      Math_round
        ((dailyTemperature (getCurrentSeason may_evening) 18 + jitter) * 10)
      / 10.
Proof.
  apply dailyTemperature_peaks_at_noon.
  unfold fresh_store; cbn [entropy]; lra.
Defined.

(** C8 as stated fails: in summer no hour from 16 to 20 reaches the
    day's maximum, which is 47 at hour 12 while hour 18 gives 35. *)
Lemma dailyTemperature_peak_not_near_18 :
  dailyTemperature summer 18 = 35 /\
  dailyTemperature summer 12 = 47 /\
  ~ (exists h, 16 <= h <= 20 /\
       forall h', dailyTemperature summer h' <= dailyTemperature summer h).
Proof.
  split; [rewrite dailyTemperature_18; simpl; lra|].
  split; [rewrite dailyTemperature_noon; simpl; lra|].
  intros (h & Hh & Hmax).
  specialize (Hmax 12).
  rewrite dailyTemperature_noon in Hmax.
  pose proof (dailyTemperature_evening summer Hh) as He.
  simpl in Hmax, He; lra.
Qed.

(** ** Efficiency prediction *)

Lemma Math_pow_2 (x : R) : 0 < x -> Math_pow x 2 = x * x.
Proof.
  intros H; unfold Math_pow.
  replace 2 with (INR 2) by (simpl; lra).
  rewrite Rpower_pow by assumption. simpl; ring.
Qed.

Lemma one_point_zero : 1.0 = 1.
Proof. lra. Qed.

Lemma solarEfficiency_clamped now w iot :
  solarEfficiency (predictEnergyEfficiency now w iot)
  = Rmax 0 (Rmin 1 (solar_factors now w iot)).
Proof.
  unfold predictEnergyEfficiency; cbn [solarEfficiency].
  unfold Math_max, Math_min, solar_factors. do 2 f_equal.
  rewrite !one_point_zero.
  destruct iot as [d|]; unfold JS.gt, JS.lt.
  - destruct (Rlt_dec 60 (panelTemperature d));
      destruct (Rlt_dec (ambientLight d) 20000); field.
  - field.
Qed.

Lemma windEfficiency_clamped now w iot :
  windEfficiency (predictEnergyEfficiency now w iot)
  = Rmax 0 (Rmin 1 (wind_factors w)).
Proof.
  unfold predictEnergyEfficiency; cbn [windEfficiency].
  unfold Math_max, Math_min, wind_factors. do 2 f_equal.
  unfold JS.gt, JS.lt.
  destruct (Rlt_dec (windSpeed w) 3); [reflexivity|].
  destruct (Rlt_dec 15 (windSpeed w)); [reflexivity|].
  rewrite Math_pow_2 by lra.
  rewrite one_point_zero. reflexivity.
Qed.

Lemma loadMultiplier_clamped now w iot :
  loadMultiplier (predictEnergyEfficiency now w iot)
  = Rmax 0.3 (Rmin 2.5 (load_factors now w)).
Proof.
  unfold predictEnergyEfficiency; cbn [loadMultiplier].
  unfold Math_max, Math_min, load_factors, Math_pow. do 2 f_equal.
  rewrite !one_point_zero.
  unfold JS.gt, JS.lt.
  destruct (Rlt_dec 70 (humidity w));
    destruct (Rlt_dec 30 (temperature w));
    try destruct (Rlt_dec (temperature w) 15); field.
Qed.

(** C2. Whatever the sample and the optional sensor reading, the predicted
    solar and wind efficiencies lie in [[0,1]] and the load multiplier in
    [[0.3,2.5]]: each is the clamp of the product of all its factors. *)
Theorem predictEnergyEfficiency_ranges :
  forall (now : Date) (weather : WeatherData) (iotData : option IoTSensorData),
    let p := predictEnergyEfficiency now weather iotData in
    (0 <= solarEfficiency p <= 1) /\
    (0 <= windEfficiency p <= 1) /\
    (0.3 <= loadMultiplier p <= 2.5) /\
    solarEfficiency p = Rmax 0 (Rmin 1 (solar_factors now weather iotData)) /\
    windEfficiency p = Rmax 0 (Rmin 1 (wind_factors weather)) /\
    loadMultiplier p = Rmax 0.3 (Rmin 2.5 (load_factors now weather)).
Proof.
  intros now weather iotData p; subst p.
  rewrite solarEfficiency_clamped, windEfficiency_clamped, loadMultiplier_clamped.
  repeat split; try reflexivity;
    try (apply clamp_bounds; lra).
Qed.

Lemma windEfficiency_below_cut_in now w iot :
  windSpeed w < 3 ->
  windEfficiency (predictEnergyEfficiency now w iot)
  = Rmax 0 (Rmin 1 (0.1 * (1 + (25 - temperature w) * 0.005))).
Proof.
  intros H. rewrite windEfficiency_clamped. unfold wind_factors.
  destruct (Rlt_dec (windSpeed w) 3); [reflexivity | contradiction].
Qed.

(** C4, as the code has it. Below the cut-in speed of 3 m/s the wind
    efficiency is the floor 0.1 scaled by the air-density proxy
    [1 + (25 - temperature) * 0.005] and clamped to [[0,1]]; it equals 0.1
    exactly when the temperature is 25. *)
Theorem windEfficiency_sub_cut_in :
  forall (now : Date) (weather : WeatherData) (iotData : option IoTSensorData),
    windSpeed weather < 3 ->
    let p := predictEnergyEfficiency now weather iotData in
    windEfficiency p
    = Rmax 0 (Rmin 1 (0.1 * (1 + (25 - temperature weather) * 0.005))) /\
    (windEfficiency p = 0.1 <-> temperature weather = 25).
Proof.
  intros now weather iotData H p; subst p.
  rewrite (windEfficiency_below_cut_in now weather iotData H).
  split; [reflexivity|].
  split; intros E.
  - revert E; cases_minmax; intros; lra.
  - rewrite E; cases_minmax; lra.
Qed.

Lemma windEfficiency_sub_cut_in_witness :
  windEfficiency (predictEnergyEfficiency may_evening calm_warm_sample None)
  = Rmax 0 (Rmin 1 (0.1 * (1 + (25 - 30) * 0.005))).
Proof.
  apply (windEfficiency_sub_cut_in may_evening calm_warm_sample None).
  simpl; lra.
Defined.

(** C4 as stated fails: at wind speed 2 and 30 degrees the wind
    efficiency is 0.0975, not 0.1. *)
Lemma windEfficiency_depends_on_temperature :
  windSpeed calm_warm_sample = 2 /\
  windEfficiency (predictEnergyEfficiency may_evening calm_warm_sample None)
  = 0.0975 /\
  windEfficiency (predictEnergyEfficiency may_evening calm_warm_sample None)
  <> 0.1.
Proof.
  assert (E : windEfficiency
                (predictEnergyEfficiency may_evening calm_warm_sample None)
              = 0.0975).
  { rewrite windEfficiency_below_cut_in by (simpl; lra).
    simpl; cases_minmax; lra. }
  split; [reflexivity|]. split; [exact E | rewrite E; lra].
Qed.

(** ** The optimal level and the band of the stored level *)

Lemma optimal_rule_range (g l : R) :
  40 <= (if g <? 0.4 then Math_min 95 (70 + (1 - g) * 25)
         else if l >? 1.3 then Math_min 90 (60 + (l - 1) * 30)
         else Math_max 40 (Math_min 80 (60 + (g - l) * 20))) <= 95.
Proof. cases_cmp; cases_minmax; lra. Qed.

Lemma calculateOptimalBatteryLevel_range now w s wd l :
  40 <= calculateOptimalBatteryLevel now w s wd l <= 95.
Proof.
  unfold calculateOptimalBatteryLevel.
  destruct (forecast w) as [fc|]; [|lra].
  destruct (next1h fc), (next6h fc), (next24h fc);
    unfold calculateSimplifiedEfficiency; cbn [obind ocatch]; try lra.
  apply optimal_rule_range.
Qed.

Lemma apply_update_band this u :
  u_optimal u <= 95 -> level_in_band this -> level_in_band (apply_update this u).
Proof.
  unfold level_in_band, apply_update.
  destruct u as [b o r]; cbn [u_balance u_optimal u_recommendation].
  intros Ho Hl.
  destruct r;
    [ rewrite stored_charge_now | rewrite stored_discharge_now
    | rewrite stored_maintain | rewrite stored_prepare_for_peak ];
    cases_cmp; cases_minmax; lra.
Qed.

Lemma run_updates_band us : forall this,
  Forall (fun u => u_optimal u <= 95) us ->
  level_in_band this -> level_in_band (run_updates us this).
Proof.
  induction us as [|u us IH]; intros this Hus Hl; [exact Hl|].
  inversion Hus; subst.
  apply IH; [assumption|].
  apply apply_update_band; assumption.
Qed.

Lemma new_simulator_band mode0 apiKey : level_in_band (new_simulator mode0 apiKey).
Proof. unfold level_in_band; simpl; lra. Qed.

(** C10. From the seed 60, after any finite sequence of battery updates
    whose optimal level is at most 95, the stored level is strictly
    between 18.5 and 97, so the clamp of the next update changes nothing
    and the value it returns is the stored one;
    [calculateOptimalBatteryLevel] always lies in [[40,95]] and so meets
    the bound. *)
Theorem batteryLevel_stays_in_band :
  forall (mode0 apiKey : string) (us : list Update),
    Forall (fun u => u_optimal u <= 95) us ->
    let this := run_updates us (new_simulator mode0 apiKey) in
    18.5 < batteryLevel this < 97 /\
    (forall u,
       u_optimal u <= 95 ->
       fst (calculateBatteryLevel
              (u_balance u) (u_optimal u) (u_recommendation u) this)
       = batteryLevel (apply_update this u)) /\
    (forall now weather solarEff0 windEff0 loadMult0,
       40 <= calculateOptimalBatteryLevel now weather solarEff0 windEff0 loadMult0
          <= 95).
Proof.
  intros mode0 apiKey us Hus this.
  assert (B : level_in_band this)
    by (apply run_updates_band; [assumption | apply new_simulator_band]).
  split; [exact B|]. split.
  - intros u Hu.
    rewrite returned_is_clamped. fold (apply_update this u).
    apply clamp_id.
    pose proof (apply_update_band u Hu B) as B'.
    unfold level_in_band in B'; lra.
  - intros; apply calculateOptimalBatteryLevel_range.
Qed.

(** Two updates on the exported instance. *)
Lemma batteryLevel_stays_in_band_witness :
  let this :=
    run_updates
      [ {| u_balance := 50; u_optimal := 80; u_recommendation := charge_now |};
        {| u_balance := -40; u_optimal := 60; u_recommendation := discharge_now |} ]
      (new_simulator "online" EmptyString) in
  18.5 < batteryLevel this < 97.
Proof.
  apply batteryLevel_stays_in_band.
  repeat constructor; simpl; lra.
Defined.

(** ** The tick *)

Lemma draws_generateIoTSensorData w :
  draws (generateIoTSensorData w) (fun _ => True).
Proof. unfold generateIoTSensorData. draws_trivial. Qed.

Lemma draws_iot_step (b : bool) w :
  draws (if b
         then bind (generateIoTSensorData w) (fun d => ret (Some d))
         else ret None)
        (fun _ => True).
Proof.
  apply draws_if.
  - eapply draws_bind; [apply draws_generateIoTSensorData|].
    intros; apply draws_ret; exact I.
  - apply draws_ret; exact I.
Qed.

Lemma same_branches {A} (b : bool) (x : A) : (if b then x else x) = x.
Proof. destruct b; reflexivity. Qed.

(** What a tick that left its [try] block normally went through. *)
Lemma tick_body_inv gen predict now st r st' :
  tick_body gen predict now st = (Return r, st') ->
  exists w f iot p st1 st2 st3,
    gen (IZR (getHours now)) st = (Return (Some w), st1) /\
    forecast w = Some f /\
    self st2 = self st1 /\
    predict w iot st2 = (Return p, st3) /\
    let upd :=
      calculateBatteryLevel (energyBalance_of now p)
        (batteryOptimalCharge p) (recommendation p) (self st3) in
    self st' = snd upd /\
    entropy st' = entropy st3 /\
    weatherData r = w /\ prediction r = p /\ iotData r = iot /\
    battery_soc_percent (energyData r) = Math_round (fst upd * 100) / 100 /\
    grid_import_kW (energyData r)
    = Math_round (Math_max 0 (- energyBalance_of now p) * 100) / 100 /\
    grid_export_kW (energyData r)
    = Math_round (Math_max 0 (energyBalance_of now p) * 100) / 100.
Proof.
  unfold tick_body. intros H.
  unfold bind at 1 in H. unfold read at 1 in H.
  rewrite same_branches in H.
  unfold bind at 1 in H.
  destruct (gen (IZR (getHours now)) st) as [[[w|]|e] st1] eqn:Eg;
    try discriminate.
  destruct (forecast w) as [f|] eqn:Ef; try discriminate.
  unfold bind at 1 in H. unfold read at 1 in H.
  unfold bind at 1 in H.
  match type of H with
  | context [(if ?b then ?c1 else ?c2) st1] =>
      destruct (draws_iot_step b w st1) as (iot & st2 & Ei & Hs & _);
      rewrite Ei in H
  end.
  unfold bind at 1 in H.
  destruct (predict w iot st2) as [[p|e] st3] eqn:Ep; try discriminate.
  unfold bind, on_this, read, ret in H.
  fold (energyBalance_of now p) in H.
  destruct (calculateBatteryLevel (energyBalance_of now p)
              (batteryOptimalCharge p) (recommendation p) (self st3))
    as [soc this'] eqn:Eu.
  injection H as <- <-.
  exists w, f, iot, p, st1, st2, st3.
  cbn [self entropy weatherData prediction iotData energyData
       battery_soc_percent grid_import_kW grid_export_kW fst snd].
  repeat split; try reflexivity; try assumption; rewrite Eu; reflexivity.
Qed.

Lemma returns_on_this {A} (f : Simulator -> A * Simulator) st :
  returns (on_this f) st
    (fun a st' => a = fst (f (self st)) /\ self st' = snd (f (self st))).
Proof.
  unfold returns, on_this. destruct (f (self st)) as [a this'].
  eexists _, _; split; [reflexivity|]; split; reflexivity.
Qed.

(** The fallback never throws. *)
Lemma tick_fallback_returns now e st :
  returns (tick_fallback now e) st
    (fun r _ =>
       energyData r = fallbackEnergyData now /\
       weatherData r = fallbackWeatherData /\
       prediction r = fallbackPrediction).
Proof.
  unfold tick_fallback.
  eapply returns_bind; [apply returns_read|].
  cbv beta; intros offline ? [_ ->].
  eapply returns_bind; [apply (draws_iot_step offline fallbackWeatherData)|].
  cbv beta; intros iot st2 _.
  eapply returns_bind; [apply returns_read|].
  cbv beta; intros m ? [_ ->].
  apply returns_ret; repeat split.
Qed.

(** With the methods of the class the [try] block always completes. *)
Lemma tick_body_returns now st :
  returns
    (tick_body (this_generateRealisticWeatherData now)
       (this_predictEnergyEfficiency now) now)
    st (fun _ _ => True).
Proof.
  unfold tick_body.
  eapply returns_bind; [apply returns_read|].
  cbv beta; intros online ? [_ ->].
  rewrite same_branches.
  eapply returns_bind with
    (Q := fun o _ => exists w f, o = Some w /\ forecast w = Some f).
  { unfold this_generateRealisticWeatherData.
    eapply returns_bind;
      [apply generateRealisticWeatherData_returns|].
    cbv beta; intros w st1 (_ & (f & Ef) & _).
    apply returns_ret; eauto. }
  intros o st1 (w & f & -> & Ef). rewrite Ef.
  eapply returns_bind; [apply returns_read|].
  cbv beta; intros offline ? [_ ->].
  eapply returns_bind; [apply (draws_iot_step offline w)|].
  cbv beta; intros iot st2 _.
  eapply returns_bind with (Q := fun _ _ => True);
    [apply returns_ret; exact I|].
  intros p st3 _.
  eapply returns_bind; [apply returns_on_this|].
  cbv beta; intros soc st4 _.
  eapply returns_bind; [apply returns_read|].
  cbv beta; intros m ? [_ ->].
  apply returns_ret; exact I.
Qed.

(** A tick of the class, start to end: it leaves the [try] block
    normally, and [this] changes by one battery update and nothing else. *)
Lemma generateEnhancedEnergyData_normal now st :
  exists r st' w iot,
    generateEnhancedEnergyData now st = (Return r, st') /\
    tick_body (this_generateRealisticWeatherData now)
      (this_predictEnergyEfficiency now) now st = (Return r, st') /\
    let p := predictEnergyEfficiency now w iot in
    let upd :=
      calculateBatteryLevel (energyBalance_of now p)
        (batteryOptimalCharge p) (recommendation p) (self st) in
    self st' = snd upd /\
    weatherData r = w /\ prediction r = p /\
    battery_soc_percent (energyData r) = Math_round (fst upd * 100) / 100.
Proof.
  destruct (tick_body_returns now st) as (r & st' & E & _).
  destruct (tick_body_inv _ _ _ _ E)
    as (w & f & iot & p & st1 & st2 & st3 & Eg & Ef & Hs & Ep
        & Hu & _ & Hw & Hp & _ & Hsoc & _).
  exists r, st', w, iot.
  split.
  { unfold generateEnhancedEnergyData, generateEnhancedEnergyData_over,
      try_catch. rewrite E; reflexivity. }
  split; [exact E|].
  unfold this_predictEnergyEfficiency, ret in Ep.
  injection Ep as <- <-.
  assert (Hself : self st2 = self st).
  { rewrite Hs.
    unfold this_generateRealisticWeatherData, bind in Eg.
    destruct (generateRealisticWeatherData_returns now (IZR (getHours now)) st)
      as (w0 & st0 & E0 & Hs0 & _).
    rewrite E0 in Eg. unfold ret in Eg. injection Eg as _ <-. exact Hs0. }
  cbv zeta in *. rewrite Hself in Hu, Hsoc.
  repeat split; assumption.
Qed.

Lemma Math_round_zero : Math_round (0 * 100) / 100 = 0.
Proof.
  unfold Math_round.
  replace (Int_part (0 * 100 + / 2)) with 0%Z; [lra|].
  apply Int_part_spec; lra.
Qed.

Lemma rounded_exchange_exclusive (b : R) :
  ~ (0 < Math_round (Math_max 0 (- b) * 100) / 100 /\
     0 < Math_round (Math_max 0 b * 100) / 100).
Proof.
  intros [Hi He].
  destruct (Rle_dec 0 b) as [Hb | Hb].
  - assert (Z : Math_max 0 (- b) = 0) by (cases_minmax; lra).
    rewrite Z, Math_round_zero in Hi; lra.
  - assert (Z : Math_max 0 b = 0) by (cases_minmax; lra).
    rewrite Z, Math_round_zero in He; lra.
Qed.

(** C7. In the record of a tick that left its [try] block normally, the
    grid import is [max 0 (- balance)] and the grid export
    [max 0 balance], both rounded to two decimals, for the one signed
    balance of generation less demand; one of the two is zero, so they are
    never both positive. *)
Theorem grid_exchange_exclusive :
  forall gen predict (now : Date) (st st' : Store) (r : TickResult),
    tick_body gen predict now st = (Return r, st') ->
    let balance := energyBalance_of now (prediction r) in
    grid_import_kW (energyData r)
    = Math_round (Rmax 0 (- balance) * 100) / 100 /\
    grid_export_kW (energyData r)
    = Math_round (Rmax 0 balance * 100) / 100 /\
    (grid_import_kW (energyData r) = 0 \/ grid_export_kW (energyData r) = 0) /\
    ~ (0 < grid_import_kW (energyData r) /\ 0 < grid_export_kW (energyData r)).
Proof.
  intros gen predict now st st' r H balance; subst balance.
  destruct (tick_body_inv _ _ _ _ H)
    as (w & f & iot & p & st1 & st2 & st3 & _ & _ & _ & _
        & _ & _ & _ & Hp & _ & _ & Hi & He).
  rewrite Hp, Hi, He. unfold Math_max.
  split; [reflexivity|]. split; [reflexivity|]. split.
  - destruct (Rle_dec 0 (energyBalance_of now p)) as [Hb | Hb].
    + left. replace (Rmax 0 (- energyBalance_of now p)) with 0
        by (cases_minmax; lra).
      apply Math_round_zero.
    + right. replace (Rmax 0 (energyBalance_of now p)) with 0
        by (cases_minmax; lra).
      apply Math_round_zero.
  - apply rounded_exchange_exclusive.
Qed.

(** A tick of the exported instance. *)
Lemma grid_exchange_exclusive_witness :
  exists r st',
    generateEnhancedEnergyData may_evening fresh_store = (Return r, st') /\
    ~ (0 < grid_import_kW (energyData r) /\ 0 < grid_export_kW (energyData r)).
Proof.
  destruct (generateEnhancedEnergyData_normal may_evening fresh_store)
    as (r & st' & w & iot & E & Eb & _).
  exists r, st'. split; [exact E|].
  apply (grid_exchange_exclusive _ _ _ _ Eb).
Defined.

(** C6. The tick never throws: whatever the two methods it calls do, it
    returns a result. When the [try] block throws, and in particular when
    weather synthesis throws, returns no object or an object without its
    forecast, or when prediction throws, that result is the fixed
    fallback: weather sunny, temperature 30, battery 65, forecast Surplus,
    with the fallback prediction. *)
Theorem generateEnhancedEnergyData_never_throws :
  forall gen predict (now : Date) (st : Store),
    exists r st',
      generateEnhancedEnergyData_over gen predict now st = (Return r, st') /\
      ((exists e st1, tick_body gen predict now st = (Throw e, st1)) \/
       synthesis_fails gen now st \/ prediction_fails predict ->
       is_fallback now r /\
       weather (energyData r) = sunny /\
       record_temperature (energyData r) = 30 /\
       battery_soc_percent (energyData r) = 65 /\
       forecast_label (energyData r) = Surplus /\
       prediction r = fallbackPrediction).
Proof.
  intros gen predict now st.
  unfold generateEnhancedEnergyData_over, try_catch.
  destruct (tick_body gen predict now st) as [[r | e] st1] eqn:E.
  - exists r, st1. split; [reflexivity|].
    intros H; exfalso.
    destruct (tick_body_inv _ _ _ _ E)
      as (w & f & iot & p & s1 & s2 & s3 & Eg & Ef & _ & Ep & _).
    destruct H as [(e & s & H) | [[(e & s & H) | [(s & H) | (w' & s & H & Hf)]] | H]].
    + discriminate.
    + rewrite H in Eg; discriminate.
    + rewrite H in Eg; discriminate.
    + rewrite H in Eg; injection Eg as -> _. congruence.
    + destruct (H w iot s2) as (e & s & H'). rewrite H' in Ep; discriminate.
  - destruct (tick_fallback_returns now e st1) as (r & st' & E' & Hf).
    exists r, st'. split; [exact E'|].
    intros _. split; [exact Hf|].
    destruct Hf as (-> & _ & ->). repeat split.
Qed.

(** The synthesizer throws and the tick answers with the fallback. *)
Lemma generateEnhancedEnergyData_never_throws_witness :
  exists r st',
    generateEnhancedEnergyData_over failing_synthesizer
      (this_predictEnergyEfficiency may_evening) may_evening fresh_store
    = (Return r, st') /\
    is_fallback may_evening r.
Proof.
  destruct (generateEnhancedEnergyData_never_throws failing_synthesizer
              (this_predictEnergyEfficiency may_evening) may_evening fresh_store)
    as (r & st' & E & H).
  exists r, st'. split; [exact E|].
  apply H. right; left; left.
  eexists _, _; reflexivity.
Defined.

(** C3. Every value the battery update returns lies in [[5,100]], whatever
    the balance, the optimal level and the recommendation. The level is
    seeded at 60; [setMode] leaves it alone, and a tick changes it by one
    call of the update. *)
Theorem calculateBatteryLevel_clamped :
  (forall energyBalance optimalLevel recommendation this,
     5 <= fst (calculateBatteryLevel energyBalance optimalLevel
                 recommendation this) <= 100) /\
  (forall mode0 apiKey, batteryLevel (new_simulator mode0 apiKey) = 60) /\
  (forall mode0 apiKey st,
     exists st',
       setMode mode0 apiKey st = (Return tt, st') /\
       batteryLevel (self st') = batteryLevel (self st)) /\
  (forall now st,
     exists r st' energyBalance optimalLevel recommendation,
       generateEnhancedEnergyData now st = (Return r, st') /\
       self st' = snd (calculateBatteryLevel energyBalance optimalLevel
                         recommendation (self st))).
Proof.
  split.
  { intros; rewrite returned_is_clamped; apply clamp_bounds; lra. }
  split; [reflexivity|]. split.
  - intros mode0 apiKey st.
    unfold setMode, on_this. eexists; split; [reflexivity|].
    cbn [self]. destruct (truthy apiKey); reflexivity.
  - intros now st.
    destruct (generateEnhancedEnergyData_normal now st)
      as (r & st' & w & iot & E & _ & Hu & _).
    exists r, st'; eauto.
Qed.

(** ** Mode *)

(** C9, as the code has it. [setMode] validates nothing: for every mode
    string it returns normally and stores the string as given, with the
    api key when a non-empty one is passed; the battery level and the
    random source are untouched, and a later tick still returns a
    result. *)
Theorem setMode_accepts_every_mode :
  forall (mode0 : string) (apiKey : option string) (st : Store),
    exists st',
      setMode mode0 apiKey st = (Return tt, st') /\
      mode (self st') = mode0 /\
      weatherApiKey (self st')
      = (match apiKey with
         | Some k => if String.eqb k EmptyString
                     then weatherApiKey (self st) else k
         | None => weatherApiKey (self st)
         end) /\
      batteryLevel (self st') = batteryLevel (self st) /\
      entropy st' = entropy st /\
      forall now, exists r st'',
        generateEnhancedEnergyData now st' = (Return r, st'').
Proof.
  intros mode0 apiKey st.
  unfold setMode, on_this. eexists; split; [reflexivity|].
  cbn [self entropy].
  repeat split.
  - destruct (truthy apiKey); reflexivity.
  - destruct apiKey as [k|]; cbn [truthy]; [|reflexivity].
    destruct (String.eqb k EmptyString); reflexivity.
  - destruct (truthy apiKey); reflexivity.
  - intros now.
    match goal with |- context [generateEnhancedEnergyData now ?s] =>
      destruct (generateEnhancedEnergyData_normal now s)
        as (r & st'' & _ & _ & E & _) end.
    eauto.
Qed.

(** C9 as stated fails: the mode "turbo" is neither "online" nor
    "offline", and [setMode] stores it without an error. *)
Lemma setMode_accepts_invalid_mode :
  "turbo"%string <> "online"%string /\
  "turbo"%string <> "offline"%string /\
  (exists st',
     setMode "turbo" None fresh_store = (Return tt, st') /\
     mode (self st') = "turbo"%string) /\
  ~ (exists e st', setMode "turbo" None fresh_store = (Throw e, st')).
Proof.
  split; [discriminate|]. split; [discriminate|]. split.
  - eexists; split; reflexivity.
  - intros (e & st' & H). discriminate.
Qed.

(* ================================================================== *)
(** * Further properties of the simulator *)

(** ** Rounding *)

(** Rounding never leaves an interval with integer ends. *)
Lemma Math_round_bounds (a b : Z) (y : R) :
  IZR a <= y <= IZR b -> IZR a <= Math_round y <= IZR b.
Proof.
  intros [Ha Hb]. unfold Math_round.
  destruct (base_Int_part (y + / 2)) as [Hle Hgt].
  split; apply IZR_le.
  - assert (H : (a - 1 < Int_part (y + / 2))%Z).
    { apply lt_IZR. rewrite minus_IZR. lra. }
    apply Z.lt_pred_le. exact H.
  - assert (H : (Int_part (y + / 2) < b + 1)%Z).
    { apply lt_IZR. rewrite plus_IZR. lra. }
    apply Z.lt_succ_r. exact H.
Qed.

(** [Math.round(x * 10) / 10] between bounds given in tenths. *)
Lemma round1_bounds (a b : Z) (x : R) :
  IZR a / 10 <= x <= IZR b / 10 ->
  IZR a / 10 <= Math_round (x * 10) / 10 <= IZR b / 10.
Proof.
  intros H.
  assert (B : IZR a <= Math_round (x * 10) <= IZR b)
    by (apply Math_round_bounds; lra).
  lra.
Qed.

(** [Math.round(x * 100) / 100] between bounds given in hundredths. *)
Lemma round2_bounds (a b : Z) (x : R) :
  IZR a / 100 <= x <= IZR b / 100 ->
  IZR a / 100 <= Math_round (x * 100) / 100 <= IZR b / 100.
Proof.
  intros H.
  assert (B : IZR a <= Math_round (x * 100) <= IZR b)
    by (apply Math_round_bounds; lra).
  lra.
Qed.

Lemma Math_round_IZR (z : Z) : Math_round (IZR z) = IZR z.
Proof.
  pose proof (@Math_round_bounds z z (IZR z)) as H. lra.
Qed.

(** ** Seasons *)

(** X1. For a month of the calendar, the season [getCurrentSeason]
    answers is the one, and the only one, whose month list holds it: the
    final [return 'postMonsoon'] is reached for October and November
    alone. *)
Theorem getCurrentSeason_partition :
  forall (now : Date) (season : Season),
    (0 <= getMonth now <= 11)%Z ->
    (includes (months (rajashtanSeasonalFactors season)) (getMonth now + 1) = true
     <-> season = getCurrentSeason now).
Proof.
  intros [m h t] season; cbn [getMonth]; intros Hm.
  unfold getCurrentSeason; cbn [getMonth].
  assert (C : (m = 0 \/ m = 1 \/ m = 2 \/ m = 3 \/ m = 4 \/ m = 5 \/ m = 6 \/
               m = 7 \/ m = 8 \/ m = 9 \/ m = 10 \/ m = 11)%Z) by lia.
  repeat (destruct C as [-> | C]); try subst m;
    destruct season; vm_compute; split; intros; congruence.
Qed.

Lemma getCurrentSeason_partition_witness :
  includes (months (rajashtanSeasonalFactors monsoon)) (getMonth july_night + 1)
  = true
  <-> monsoon = getCurrentSeason july_night.
Proof.
  apply getCurrentSeason_partition. simpl; lia.
Defined.

(** ** Daytime factor and load pattern *)


(** X10. The load pattern is a step table with values between 0.4 and
    1.2; the peak 1.2 is taken exactly from hour 12 up to, not including,
    hour 16, and the low 0.4 exactly before hour 5. *)
Theorem getLoadPattern_shape :
  forall hour,
    0.4 <= getLoadPattern hour <= 1.2 /\
    (getLoadPattern hour = 1.2 <-> 12 <= hour < 16) /\
    (getLoadPattern hour = 0.4 <-> hour < 5).
Proof.
  intros hour; unfold getLoadPattern; cases_cmp;
    repeat split; intros; try lra.
Qed.

(** ** More on the battery update *)

(** X18. One call of the battery update moves the stored level by at most
    3 upwards and 1.5 downwards, never down on a balance that is not
    negative and never up on one that is not positive; [charge_now] and
    [prepare_for_peak] never lower it and [discharge_now] never raises it.
    The mode and the api key are left alone. *)
Theorem calculateBatteryLevel_step :
  forall (energyBalance optimalLevel : R) (r : Recommendation) (this : Simulator),
    let this' := snd (calculateBatteryLevel energyBalance optimalLevel r this) in
    mode this' = mode this /\
    weatherApiKey this' = weatherApiKey this /\
    -1.5 <= batteryLevel this' - batteryLevel this <= 3 /\
    (0 <= energyBalance -> batteryLevel this <= batteryLevel this') /\
    (energyBalance <= 0 -> batteryLevel this' <= batteryLevel this) /\
    (r = charge_now \/ r = prepare_for_peak ->
       batteryLevel this <= batteryLevel this') /\
    (r = discharge_now -> batteryLevel this' <= batteryLevel this).
Proof.
  intros energyBalance optimalLevel r this this'; subst this'.
  split; [|split].
  - unfold calculateBatteryLevel; cbn [snd].
    destruct r; repeat (destruct (_ && _)); reflexivity.
  - unfold calculateBatteryLevel; cbn [snd].
    destruct r; repeat (destruct (_ && _)); reflexivity.
  - destruct r;
      [ rewrite stored_charge_now | rewrite stored_discharge_now
      | rewrite stored_maintain | rewrite stored_prepare_for_peak ];
      cases_cmp; cases_minmax;
      repeat split; intros; try lra;
      try (match goal with H : _ \/ _ |- _ => destruct H; discriminate end);
      try discriminate.
Qed.

(** ** The recommendation *)

(** X8. The recommendation is decided by the mean efficiency
    [a = (solar + wind) / 2] and the load multiplier [l] alone, in this
    order of priority: [charge_now] exactly when [a > 0.7] and [l < 1.2];
    otherwise [prepare_for_peak] exactly when [a < 0.3] or [l > 1.5];
    [discharge_now] only for [0.3 <= a < 0.9]; [maintain] only when
    [a] is at least 0.3 and at least [0.6 * l]. *)
Theorem generateActionRecommendation_table :
  forall (solarEff0 windEff0 loadMult0 : R) (weather : WeatherData),
    let a := (solarEff0 + windEff0) / 2 in
    let r := generateActionRecommendation solarEff0 windEff0 loadMult0 weather in
    (r = charge_now <-> a > 0.7 /\ loadMult0 < 1.2) /\
    (r = prepare_for_peak <->
       ~ (a > 0.7 /\ loadMult0 < 1.2) /\ (a < 0.3 \/ loadMult0 > 1.5)) /\
    (r = discharge_now <->
       0.3 <= a < loadMult0 * 0.6 /\ loadMult0 <= 1.5 /\
       ~ (a > 0.7 /\ loadMult0 < 1.2)) /\
    (r = discharge_now -> a < 0.9) /\
    (r = maintain <->
       0.3 <= a /\ loadMult0 * 0.6 <= a /\ loadMult0 <= 1.5 /\
       ~ (a > 0.7 /\ loadMult0 < 1.2)) /\
    (forall weather', generateActionRecommendation solarEff0 windEff0 loadMult0
                        weather' = r).
Proof.
  intros solarEff0 windEff0 loadMult0 weather a r; subst r.
  unfold generateActionRecommendation. fold a.
  cases_cmp; repeat split; intros; try discriminate; try lra;
    try reflexivity;
    repeat match goal with
      | H : _ /\ _ |- _ => destruct H
      | H : _ \/ _ |- _ => destruct H
      | H : ~ _ |- _ => exfalso; apply H; split; lra
      | |- ~ _ => intros [? ?]
      | |- _ \/ _ => first [left; lra | right; lra]
      end; try lra.
Qed.

(** ** The optimal level *)

(** X6. The optimal level falls back to 60 when the sample has no
    forecast or when one of the three forecast entries is missing, and it
    ignores the three current efficiencies it is passed: only the forecast
    and the season count. *)
Theorem calculateOptimalBatteryLevel_defaults :
  forall (now : Date) (weather : WeatherData) (solarEff0 windEff0 loadMult0 : R),
    (forecast weather = None ->
       calculateOptimalBatteryLevel now weather solarEff0 windEff0 loadMult0 = 60) /\
    (forall fc,
       forecast weather = Some fc ->
       next1h fc = None \/ next6h fc = None \/ next24h fc = None ->
       calculateOptimalBatteryLevel now weather solarEff0 windEff0 loadMult0 = 60) /\
    (forall s w l,
       calculateOptimalBatteryLevel now weather s w l
       = calculateOptimalBatteryLevel now weather solarEff0 windEff0 loadMult0).
Proof.
  intros now weather solarEff0 windEff0 loadMult0.
  unfold calculateOptimalBatteryLevel.
  split; [intros ->; reflexivity|]. split; [|reflexivity].
  intros fc -> H.
  destruct (next1h fc) as [e1|]; [|reflexivity].
  destruct (next6h fc) as [e6|]; [|reflexivity].
  destruct (next24h fc) as [e24|]; [|reflexivity].
  destruct H as [H | [H | H]]; discriminate.
Qed.

(** The calm sample with its forecast taken away. *)
Lemma calculateOptimalBatteryLevel_defaults_witness :
  calculateOptimalBatteryLevel may_evening
    {| condition := sunny; temperature := 30; humidity := 50; windSpeed := 2;
       cloudCover := 20; uvIndex := 6; visibility := 10; forecast := None |}
    1 1 1
  = 60.
Proof.
  apply calculateOptimalBatteryLevel_defaults. reflexivity.
Defined.

(** ** The simplified efficiency of a forecast *)

(** X7. Evaluated on a forecast entry with the temperature, wind speed
    and cloud cover of a sample, the simplified efficiency agrees with the
    prediction for that sample without sensors, as long as the factors it
    leaves out are neutral: UV index at least 8, visibility at least 10,
    humidity at most 70. *)
Theorem calculateSimplifiedEfficiency_agrees :
  forall (now : Date) (weather current : WeatherData) (entry : ForecastEntry),
    fc_temperature entry = temperature weather ->
    fc_windSpeed entry = windSpeed weather ->
    fc_cloudCover entry = cloudCover weather ->
    8 <= uvIndex weather ->
    10 <= visibility weather ->
    humidity weather <= 70 ->
    let p := predictEnergyEfficiency now weather None in
    calculateSimplifiedEfficiency now (Some entry) current
    = Return {| solarEff := solarEfficiency p;
                windEff := windEfficiency p;
                loadMult := loadMultiplier p |}.
Proof.
  intros now weather current entry Ht Hw Hc Huv Hvis Hhum p; subst p.
  unfold calculateSimplifiedEfficiency, predictEnergyEfficiency.
  cbn [solarEfficiency windEfficiency loadMultiplier].
  rewrite Ht, Hw, Hc.
  assert (U : Math_min 1.0 (uvIndex weather / 8) = 1) by (cases_minmax; lra).
  assert (V : Math_min 1.0 (visibility weather / 10) = 1) by (cases_minmax; lra).
  assert (G : (humidity weather >? 70) = false) by (apply gt_false; exact Hhum).
  rewrite U, V, G.
  do 2 f_equal. do 2 f_equal. field.
Qed.

(** The fallback sample on a clear day, seen one hour ahead. *)
Lemma calculateSimplifiedEfficiency_agrees_witness :
  let clear_day :=
    {| condition := sunny; temperature := 30; humidity := 50; windSpeed := 5;
       cloudCover := 20; uvIndex := 8; visibility := 10;
       forecast := forecast fallbackWeatherData |} in
  let entry :=
    {| fc_condition := sunny; fc_temperature := 30; fc_windSpeed := 5;
       fc_cloudCover := 20 |} in
  let p := predictEnergyEfficiency may_evening clear_day None in
  calculateSimplifiedEfficiency may_evening (Some entry) clear_day
  = Return {| solarEff := solarEfficiency p;
              windEff := windEfficiency p;
              loadMult := loadMultiplier p |}.
Proof.
  apply calculateSimplifiedEfficiency_agrees; simpl; try reflexivity; lra.
Defined.

(** ** Draws from a proper random source *)

Lemma udraws_ret {A} (a : A) (P : A -> Prop) : P a -> udraws (ret a) P.
Proof. intros H st U; apply returns_ret; auto. Qed.

Lemma udraws_bind {A B} (c : M A) (k : A -> M B) (Q : A -> Prop) (P : B -> Prop) :
  udraws c Q -> (forall a, Q a -> udraws (k a) P) -> udraws (bind c k) P.
Proof.
  intros Hc Hk st U.
  apply returns_bind with
    (Q := fun a st' => self st' = self st /\ unit_source st' /\ Q a).
  - apply Hc; exact U.
  - intros a st' (E & U' & HQ).
    eapply returns_weaken; [apply (Hk a HQ); exact U'|].
    cbv beta; intros b st'' (E' & U'' & HP).
    split; [congruence | split; assumption].
Qed.

Lemma udraws_random : udraws Math_random (fun r => 0 <= r < 1).
Proof.
  intros st U. eexists _, _; split; [reflexivity|].
  cbn [self entropy]. split; [reflexivity|]. split; [|apply U].
  intros n; apply U.
Qed.

Lemma udraws_weaken {A} (c : M A) (P Q : A -> Prop) :
  udraws c P -> (forall a, P a -> Q a) -> udraws c Q.
Proof.
  intros Hc H st U; eapply returns_weaken; [apply Hc; exact U|].
  cbv beta; intros a st' (E & U' & HP); auto.
Qed.

Lemma udraws_if {A} (b : bool) (c1 c2 : M A) (P : A -> Prop) :
  (b = true -> udraws c1 P) -> (b = false -> udraws c2 P) ->
  udraws (if b then c1 else c2) P.
Proof. destruct b; auto. Qed.

(** A draw followed by a pure function of it. *)
Lemma udraws_random_then {A} (f : R -> A) (P : A -> Prop) :
  (forall r, 0 <= r < 1 -> P (f r)) ->
  udraws (bind Math_random (fun r => ret (f r))) P.
Proof.
  intros H. eapply udraws_bind; [apply udraws_random|].
  intros r Hr; apply udraws_ret; auto.
Qed.

Lemma udraws_getConditionForHour season hour :
  udraws (getConditionForHour season hour) (forecast_condition season).
Proof.
  unfold getConditionForHour.
  destruct season; cbn [Season_eqb forecast_condition];
    apply udraws_random_then; intros r _; cbv beta; cases_cmp;
    unfold forecast_condition; auto.
Qed.

Lemma round1_of_integer (season : Season) :
  Math_round (getSeasonalBaseTemperature season * 10) / 10
  = getSeasonalBaseTemperature season.
Proof.
  destruct season; cbn [getSeasonalBaseTemperature].
  - replace (18 * 10) with 180 by lra. rewrite (Math_round_IZR 180). lra.
  - replace (35 * 10) with 350 by lra. rewrite (Math_round_IZR 350). lra.
  - replace (28 * 10) with 280 by lra. rewrite (Math_round_IZR 280). lra.
  - replace (25 * 10) with 250 by lra. rewrite (Math_round_IZR 250). lra.
Qed.

(** [lo <= Math.round(x * 10) / 10 <= hi] from bounds on [x], the ends
    given in tenths. *)
Ltac round1 a b :=
  match goal with
  | |- _ <= Math_round (?x * 10) / 10 <= _ =>
      let H := fresh in
      assert (H : IZR a / 10 <= x <= IZR b / 10) by lra;
      apply round1_bounds in H; lra
  end.

Lemma udraws_generateShortTermForecast hour season :
  udraws (generateShortTermForecast hour season) (well_forecast season hour).
Proof.
  unfold generateShortTermForecast.
  eapply udraws_bind; [apply udraws_getConditionForHour|]. intros c1 Hc1.
  eapply udraws_bind; [apply udraws_random|]. intros w1 Hw1.
  eapply udraws_bind; [apply udraws_random|]. intros k1 Hk1.
  eapply udraws_bind; [apply udraws_getConditionForHour|]. intros c6 Hc6.
  eapply udraws_bind; [apply udraws_random|]. intros w6 Hw6.
  eapply udraws_bind; [apply udraws_random|]. intros k6 Hk6.
  eapply udraws_bind; [apply udraws_getConditionForHour|]. intros c24 Hc24.
  eapply udraws_bind; [apply udraws_random|]. intros w24 Hw24.
  eapply udraws_bind; [apply udraws_random|]. intros k24 Hk24.
  apply udraws_ret. unfold well_forecast.
  eexists _, _, _. cbn [next1h next6h next24h].
  split; [reflexivity|]. split; [reflexivity|]. split; [reflexivity|].
  cbn [fc_condition fc_windSpeed fc_cloudCover fc_temperature].
  split; [exact Hc1|]. split; [exact Hc6|]. split; [exact Hc24|].
  split; [round1 30%Z 80%Z|]. split; [round1 200%Z 600%Z|].
  split; [round1 40%Z 100%Z|]. split; [round1 100%Z 400%Z|].
  split; [round1 30%Z 100%Z|]. split; [round1 250%Z 600%Z|].
  split; [|split].
  - unfold dailyTemperature. reflexivity.
  - unfold dailyTemperature. reflexivity.
  - apply round1_of_integer.
Qed.

Lemma udraws_seasonal_draw season :
  udraws
    (if Season_eqb season monsoon then
       r <- Math_random ;;
       let cloudCover := 60 + r * 40 in
       let condition := if cloudCover >? 80 then cloudy else partly_cloudy in
       r' <- Math_random ;;
       let condition := if r' <? 0.3 then rainy else condition in
       ret (cloudCover, condition)
     else if Season_eqb season summer then
       r <- Math_random ;;
       let cloudCover := r * 30 in
       ret (cloudCover,
            if cloudCover <? 10 then sunny
            else if cloudCover <? 20 then partly_cloudy else dusty)
     else
       r <- Math_random ;;
       let cloudCover := r * 50 in
       ret (cloudCover,
            if cloudCover <? 15 then sunny
            else if cloudCover <? 35 then partly_cloudy else cloudy))
    (seasonal_draw season).
Proof.
  destruct season; cbn [Season_eqb].
  - apply udraws_random_then; intros r Hr; unfold seasonal_draw; cbn [fst snd].
    split; [lra|]. cases_cmp; auto.
  - apply udraws_random_then; intros r Hr; unfold seasonal_draw; cbn [fst snd].
    split; [lra|]. cases_cmp; auto.
  - eapply udraws_bind; [apply udraws_random|]. intros r Hr.
    eapply udraws_bind; [apply udraws_random|]. intros r' Hr'.
    apply udraws_ret; unfold seasonal_draw; cbn [fst snd].
    split; [lra|]. cases_cmp; auto.
  - apply udraws_random_then; intros r Hr; unfold seasonal_draw; cbn [fst snd].
    split; [lra|]. cases_cmp; auto.
Qed.

Lemma udraws_generateRealisticWeatherData now hour :
  udraws (generateRealisticWeatherData now hour)
         (well_synthesized (getCurrentSeason now) hour).
Proof.
  unfold generateRealisticWeatherData.
  set (season := getCurrentSeason now).
  eapply udraws_bind; [apply udraws_random|]. intros jitter Hj.
  cbv beta in Hj.
  eapply udraws_bind; [apply udraws_seasonal_draw|]. intros [cc c0] Hd.
  cbn [fst snd].
  set (c := if (hour <? 6) || (hour >? 19) then clear_night else c0).
  eapply udraws_bind with
    (Q := fun ws => match season with
                    | summer => 3 <= ws <= 11
                    | _ => 2 <= ws <= 7
                    end).
  { destruct season; cbn [Season_eqb];
      apply udraws_random_then; intros r Hr; cbv beta iota; lra. }
  intros ws Hws.
  eapply udraws_bind with
    (Q := fun h => match season with
                   | monsoon => 70 <= h <= 95
                   | summer => 20 <= h <= 50
                   | _ => 40 <= h <= 75
                   end).
  { destruct season; cbn [Season_eqb];
      apply udraws_random_then; intros r Hr; cbv beta iota; lra. }
  intros hum Hhum.
  eapply udraws_bind with (Q := visibility_range c).
  { destruct c; cbn [Condition_eqb];
      apply udraws_random_then; intros r Hr; cbn [visibility_range]; lra. }
  intros vis Hvis.
  eapply udraws_bind; [apply udraws_generateShortTermForecast|].
  intros fc Hfc.
  apply udraws_ret. unfold well_synthesized.
  cbn [condition temperature humidity windSpeed cloudCover uvIndex visibility
       forecast].
  pose proof (SIN_bound ((hour - 6) / 12 * PI)) as Hsin.
  unfold Math_sin, Math_PI.
  set (s := sin ((hour - 6) / 12 * PI)) in *.
  assert (Hc0 : c0 <> clear_night).
  { destruct season; cbn [seasonal_draw snd] in Hd;
      destruct Hd as [_ [H | [H | H]]]; rewrite H; discriminate. }
  assert (Hnight : c = clear_night <-> hour < 6 \/ hour > 19).
  { subst c. destruct (hour <? 6) eqn:E6; destruct (hour >? 19) eqn:E19;
      cbn [orb];
      try apply lt_true in E6; try apply lt_false in E6;
      try apply gt_true in E19; try apply gt_false in E19;
      split; intros H; try reflexivity; try (left; lra); try (right; lra);
      try contradiction.
    destruct H; lra. }
  assert (Hcond : c = clear_night \/ c = c0).
  { subst c. destruct ((hour <? 6) || (hour >? 19)); auto. }
  clearbody c season s.
  split.
  { destruct season; cbn [seasonal_draw seasonal_ranges fst snd] in *;
      cbn [condition humidity windSpeed cloudCover];
      destruct Hd as [Hcc Hd];
      (split; [|split; [|split]]);
      [ round1 0%Z 500%Z | round1 400%Z 750%Z | round1 20%Z 70%Z
      | destruct Hcond as [-> | ->]; tauto
      | round1 0%Z 300%Z | round1 200%Z 500%Z | round1 30%Z 110%Z
      | destruct Hcond as [-> | ->]; tauto
      | round1 600%Z 1000%Z | round1 700%Z 950%Z | round1 20%Z 70%Z
      | destruct Hcond as [-> | ->]; tauto
      | round1 0%Z 500%Z | round1 400%Z 750%Z | round1 20%Z 70%Z
      | destruct Hcond as [-> | ->]; tauto ]. }
  split; [exact Hnight|].
  split.
  { destruct c; cbn [Condition_eqb]; cases_minmax; round1 10%Z 110%Z. }
  split.
  { intros H1 H2. destruct c; cbn [Condition_eqb]; try contradiction;
      replace (2 * 10) with 20 by lra; rewrite (Math_round_IZR 20); lra. }
  split.
  { destruct c; cbn [visibility_range] in *;
      first [round1 20%Z 50%Z | round1 10%Z 30%Z | round1 80%Z 150%Z]. }
  split.
  { destruct season; cbn [getSeasonalBaseTemperature getTemperatureRange];
      [ round1 85%Z 275%Z | round1 215%Z 485%Z
      | round1 205%Z 355%Z | round1 145%Z 355%Z ]. }
  exists fc; split; [reflexivity | exact Hfc].
Qed.

Lemma unit_source_fresh_store : unit_source fresh_store.
Proof. intros n; unfold fresh_store; cbn [entropy]; lra. Qed.

(** X2. With draws in [[0,1)], every synthesized sample has cloud cover
    in [[0,100]], humidity in [[20,95]], wind speed in [[2,11]], UV index
    in [[1,11]], visibility in [[1,15]] and temperature in [[8.5,48.5]].
    Its condition is [clear_night] only at night (before 6 or after 19);
    the UV index is 2 unless it is sunny or partly cloudy; visibility is
    2 to 5 km when dusty, 1 to 3 km when rainy and 8 to 15 km otherwise. *)
Theorem generateRealisticWeatherData_ranges :
  forall (now : Date) (hour : R) (st : Store),
    unit_source st ->
    exists w st',
      generateRealisticWeatherData now hour st = (Return w, st') /\
      unit_source st' /\
      0 <= cloudCover w <= 100 /\
      20 <= humidity w <= 95 /\
      2 <= windSpeed w <= 11 /\
      1 <= uvIndex w <= 11 /\
      1 <= visibility w <= 15 /\
      8.5 <= temperature w <= 48.5 /\
      (condition w = clear_night <-> hour < 6 \/ hour > 19) /\
      (condition w <> sunny -> condition w <> partly_cloudy -> uvIndex w = 2) /\
      (condition w = dusty -> 2 <= visibility w <= 5) /\
      (condition w = rainy -> 1 <= visibility w <= 3) /\
      (condition w <> dusty -> condition w <> rainy -> 8 <= visibility w <= 15).
Proof.
  intros now hour st U.
  destruct (udraws_generateRealisticWeatherData now hour U)
    as (w & st' & E & _ & U' & Hs & Hn & Huv & Huv2 & Hvis & Ht & _).
  exists w, st'. split; [exact E|]. split; [exact U'|].
  assert (R1 : 0 <= cloudCover w <= 100 /\ 20 <= humidity w <= 95 /\
               2 <= windSpeed w <= 11).
  { destruct (getCurrentSeason now); cbn [seasonal_ranges] in Hs; lra. }
  assert (R2 : 8.5 <= temperature w <= 48.5).
  { destruct (getCurrentSeason now);
      cbn [getSeasonalBaseTemperature getTemperatureRange] in Ht; lra. }
  destruct R1 as (? & ? & ?).
  repeat (split; [assumption|]).
  split.
  { destruct (condition w); cbn [visibility_range] in Hvis; lra. }
  split; [exact R2|]. split; [exact Hn|]. split; [exact Huv2|].
  split; [|split].
  - intros Hc; rewrite Hc in Hvis; exact Hvis.
  - intros Hc; rewrite Hc in Hvis; exact Hvis.
  - intros Hd Hr. destruct (condition w); cbn [visibility_range] in Hvis;
      try contradiction; exact Hvis.
Qed.

Lemma generateRealisticWeatherData_ranges_witness :
  exists w st',
    generateRealisticWeatherData may_evening 18 fresh_store = (Return w, st') /\
    0 <= cloudCover w <= 100.
Proof.
  destruct (generateRealisticWeatherData_ranges may_evening 18
              unit_source_fresh_store)
    as (w & st' & E & _ & H & _).
  exists w, st'. split; [exact E | exact H].
Defined.

(** X3. With draws in [[0,1)], the season narrows the sample. Monsoon:
    cloud cover 60 to 100, humidity 70 to 95, wind 2 to 7, condition
    cloudy, partly cloudy or rainy. Summer: cloud cover 0 to 30, humidity
    20 to 50, wind 3 to 11, condition sunny, partly cloudy or dusty.
    Winter and post-monsoon: cloud cover 0 to 50, humidity 40 to 75, wind
    2 to 7, condition sunny, partly cloudy or cloudy. In each case the
    condition may also be [clear_night], and the temperature stays within
    the seasonal range plus the jitter of 1.5 around the base. *)
Theorem generateRealisticWeatherData_by_season :
  forall (now : Date) (hour : R) (st : Store),
    unit_source st ->
    exists w st',
      generateRealisticWeatherData now hour st = (Return w, st') /\
      let base := getSeasonalBaseTemperature (getCurrentSeason now) in
      let range := getTemperatureRange (getCurrentSeason now) in
      base - range - 1.5 <= temperature w <= base + range + 1.5 /\
      match getCurrentSeason now with
      | monsoon =>
          60 <= cloudCover w <= 100 /\ 70 <= humidity w <= 95 /\
          2 <= windSpeed w <= 7 /\
          (condition w = cloudy \/ condition w = partly_cloudy \/
           condition w = rainy \/ condition w = clear_night)
      | summer =>
          0 <= cloudCover w <= 30 /\ 20 <= humidity w <= 50 /\
          3 <= windSpeed w <= 11 /\
          (condition w = sunny \/ condition w = partly_cloudy \/
           condition w = dusty \/ condition w = clear_night)
      | winter | postMonsoon =>
          0 <= cloudCover w <= 50 /\ 40 <= humidity w <= 75 /\
          2 <= windSpeed w <= 7 /\
          (condition w = sunny \/ condition w = partly_cloudy \/
           condition w = cloudy \/ condition w = clear_night)
      end.
Proof.
  intros now hour st U.
  destruct (udraws_generateRealisticWeatherData now hour U)
    as (w & st' & E & _ & _ & Hs & _ & _ & _ & _ & Ht & _).
  exists w, st'. split; [exact E|]. cbv zeta. split; [exact Ht|].
  exact Hs.
Qed.

Lemma generateRealisticWeatherData_by_season_witness :
  exists w st',
    generateRealisticWeatherData july_night 3 fresh_store = (Return w, st') /\
    60 <= cloudCover w <= 100.
Proof.
  destruct (generateRealisticWeatherData_by_season july_night 3
              unit_source_fresh_store)
    as (w & st' & E & _ & H & _).
  exists w, st'. split; [exact E | exact H].
Defined.

(** X4. With draws in [[0,1)], every synthesized sample carries a
    forecast with all three entries. None of them is ever [clear_night],
    even for a night hour: the condition is rainy or cloudy in monsoon,
    sunny or dusty in summer, sunny or partly cloudy otherwise. Wind and
    cloud cover lie in 3-8 and 20-60 (1h), 4-10 and 10-40 (6h), 3-10 and
    25-60 (24h); the temperatures follow the daily curve one and six
    hours ahead, and the 24h one is the seasonal base. *)
Theorem generateRealisticWeatherData_forecast :
  forall (now : Date) (hour : R) (st : Store),
    unit_source st ->
    exists w st' fc e1 e6 e24,
      generateRealisticWeatherData now hour st = (Return w, st') /\
      forecast w = Some fc /\
      next1h fc = Some e1 /\ next6h fc = Some e6 /\ next24h fc = Some e24 /\
      let season := getCurrentSeason now in
      (forall e, e = e1 \/ e = e6 \/ e = e24 ->
         fc_condition e <> clear_night /\
         match season with
         | monsoon => fc_condition e = rainy \/ fc_condition e = cloudy
         | summer => fc_condition e = sunny \/ fc_condition e = dusty
         | winter | postMonsoon =>
             fc_condition e = sunny \/ fc_condition e = partly_cloudy
         end) /\
      3 <= fc_windSpeed e1 <= 8 /\ 20 <= fc_cloudCover e1 <= 60 /\
      4 <= fc_windSpeed e6 <= 10 /\ 10 <= fc_cloudCover e6 <= 40 /\
      3 <= fc_windSpeed e24 <= 10 /\ 25 <= fc_cloudCover e24 <= 60 /\
      fc_temperature e1
      = Math_round (dailyTemperature season (hour + 1) * 10) / 10 /\
      fc_temperature e6
      = Math_round (dailyTemperature season (hour + 6) * 10) / 10 /\
      fc_temperature e24 = getSeasonalBaseTemperature season.
Proof.
  intros now hour st U.
  destruct (udraws_generateRealisticWeatherData now hour U)
    as (w & st' & E & _ & _ & _ & _ & _ & _ & _ & _ & fc & Ef & Hfc).
  destruct Hfc as (e1 & e6 & e24 & E1 & E6 & E24 & C1 & C6 & C24 & H).
  exists w, st', fc, e1, e6, e24.
  repeat (split; [assumption|]). cbv zeta.
  split; [|exact H].
  intros e [-> | [-> | ->]];
    (split; [|assumption]);
    destruct (getCurrentSeason now); cbn [forecast_condition] in *;
    match goal with
    | H : fc_condition ?e = _ \/ _ |- fc_condition ?e <> _ =>
        destruct H as [H | H]; rewrite H; discriminate
    end.
Qed.

Lemma generateRealisticWeatherData_forecast_witness :
  exists w st' fc,
    generateRealisticWeatherData july_night 3 fresh_store = (Return w, st') /\
    forecast w = Some fc.
Proof.
  destruct (generateRealisticWeatherData_forecast july_night 3
              unit_source_fresh_store)
    as (w & st' & fc & e1 & e6 & e24 & E & H & _).
  exists w, st', fc. split; [exact E | exact H].
Defined.

(** ** Sensor readings *)

Lemma Math_round_near (y : R) : y - / 2 < Math_round y <= y + / 2.
Proof.
  unfold Math_round. destruct (base_Int_part (y + / 2)) as [Hle Hgt]. lra.
Qed.

Lemma udraws_generateIoTSensorData w :
  udraws (generateIoTSensorData w) (well_sensed w).
Proof.
  unfold generateIoTSensorData.
  eapply udraws_bind with
    (Q := fun l => match condition w with
                   | sunny => 80000 <= l <= 100000
                   | partly_cloudy => 40000 <= l <= 70000
                   | cloudy => 10000 <= l <= 25000
                   | _ => l = 500
                   end).
  { destruct (condition w); cbn [Condition_eqb];
      first [ apply udraws_random_then; intros r Hr; cbv beta iota; lra
            | apply udraws_ret; reflexivity ]. }
  intros light Hl.
  eapply udraws_bind; [apply udraws_random|]. intros rpm Hrpm.
  eapply udraws_bind; [apply udraws_random|]. intros volt Hvolt.
  eapply udraws_bind; [apply udraws_random|]. intros inv Hinv.
  eapply udraws_bind; [apply udraws_random|]. intros pf Hpf.
  cbv beta in *.
  apply udraws_ret. unfold well_sensed.
  cbn [panelTemperature panelTilt windTurbineRPM ambientLight batteryVoltage
       inverterEfficiency loadPowerFactor].
  split; [reflexivity|]. split; [reflexivity|].
  split; [unfold Math_round; eexists; reflexivity|].
  split.
  { pose proof (Math_round_near (windSpeed w * 25 + rpm * 50)). lra. }
  split; [|lra].
  destruct (condition w).
  - apply (@Math_round_bounds 80000 100000); lra.
  - apply (@Math_round_bounds 40000 70000); lra.
  - apply (@Math_round_bounds 10000 25000); lra.
  - rewrite Hl. apply (Math_round_IZR 500).
  - rewrite Hl. apply (Math_round_IZR 500).
  - rewrite Hl. apply (Math_round_IZR 500).
Qed.

(** X5. With draws in [[0,1)], a synthesized sensor reading has the
    panel tilt 30, a battery voltage in [[47,49)], an inverter efficiency
    in [[94,98)] and a power factor in [[0.85,0.95)]; the turbine speed is
    a whole number within half a turn of 25 times the wind speed plus up
    to 50. The ambient light is at least 40000 lux for a sunny or partly
    cloudy sample, so the predictor's low-light derating (below 20000)
    never applies to it, and exactly 500 lux for a dusty, rainy or night
    sample, to which it always applies. *)
Theorem generateIoTSensorData_ranges :
  forall (weather : WeatherData) (st : Store),
    unit_source st ->
    exists d st',
      generateIoTSensorData weather st = (Return d, st') /\
      self st' = self st /\
      panelTemperature d
      = Math_round ((temperature weather + 15 + uvIndex weather * 2) * 10) / 10 /\
      panelTilt d = 30 /\
      47 <= batteryVoltage d < 49 /\
      94 <= inverterEfficiency d < 98 /\
      0.85 <= loadPowerFactor d < 0.95 /\
      (exists z, windTurbineRPM d = IZR z) /\
      windSpeed weather * 25 - 0.5 < windTurbineRPM d
        <= windSpeed weather * 25 + 50.5 /\
      (condition weather = sunny \/ condition weather = partly_cloudy ->
         40000 <= ambientLight d <= 100000) /\
      (condition weather = cloudy -> 10000 <= ambientLight d <= 25000) /\
      (condition weather = dusty \/ condition weather = rainy \/
       condition weather = clear_night -> ambientLight d = 500).
Proof.
  intros weather st U.
  destruct (udraws_generateIoTSensorData weather U)
    as (d & st' & E & Hs & _ & Hp & Ht & Hz & Hrpm & Hl & Hv & Hi & Hf).
  exists d, st'.
  repeat (split; [assumption|]).
  split; [|split].
  - intros [H | H]; rewrite H in Hl; lra.
  - intros H; rewrite H in Hl; exact Hl.
  - intros [H | [H | H]]; rewrite H in Hl; exact Hl.
Qed.

Lemma generateIoTSensorData_ranges_witness :
  exists d st',
    generateIoTSensorData fallbackWeatherData fresh_store = (Return d, st') /\
    panelTilt d = 30.
Proof.
  destruct (generateIoTSensorData_ranges fallbackWeatherData
              unit_source_fresh_store)
    as (d & st' & E & _ & _ & H & _).
  exists d, st'. split; [exact E | exact H].
Defined.

(** ** Ticks, field by field *)

Lemma sensor_step_inv (w : WeatherData) st1 iot st2 :
  (if String.eqb (mode (self st1)) "offline"
   then bind (generateIoTSensorData w) (fun d => ret (Some d))
   else ret None) st1 = (Return iot, st2) ->
  sensor_step w st1 iot st2.
Proof.
  unfold sensor_step.
  destruct (String.eqb (mode (self st1)) "offline") eqn:Em.
  - apply String.eqb_eq in Em. intros H. left. split; [exact Em|].
    unfold bind in H.
    destruct (generateIoTSensorData w st1) as [[d | e] s] eqn:Ed;
      [|discriminate].
    unfold ret in H. injection H as <- <-. exists d; auto.
  - apply String.eqb_neq in Em. intros H. right.
    unfold ret in H. injection H as <- <-. auto.
Qed.

(** A tick that left its [try] block normally, in full. *)
Lemma tick_body_inv_full gen predict now st r st' :
  tick_body gen predict now st = (Return r, st') ->
  exists w f iot p st1 st2 st3,
    gen (IZR (getHours now)) st = (Return (Some w), st1) /\
    forecast w = Some f /\
    sensor_step w st1 iot st2 /\
    predict w iot st2 = (Return p, st3) /\
    let upd :=
      calculateBatteryLevel (energyBalance_of now p)
        (batteryOptimalCharge p) (recommendation p) (self st3) in
    st' = {| self := snd upd; entropy := entropy st3 |} /\
    r = {| energyData := energyData_of now w p (fst upd);
           weatherData := w;
           prediction := p;
           iotData := iot;
           result_mode := mode (snd upd) |}.
Proof.
  unfold tick_body. intros H.
  unfold bind at 1 in H. unfold read at 1 in H.
  rewrite same_branches in H.
  unfold bind at 1 in H.
  destruct (gen (IZR (getHours now)) st) as [[[w|]|e] st1] eqn:Eg;
    try discriminate.
  destruct (forecast w) as [f|] eqn:Ef; try discriminate.
  unfold bind at 1 in H. unfold read at 1 in H.
  unfold bind at 1 in H.
  match type of H with
  | context [(if ?b then ?c1 else ?c2) st1] =>
      destruct ((if b then c1 else c2) st1) as [[iot | e] st2] eqn:Ei;
        [|discriminate]
  end.
  apply sensor_step_inv in Ei.
  unfold bind at 1 in H.
  destruct (predict w iot st2) as [[p|e] st3] eqn:Ep; try discriminate.
  unfold bind, on_this, read, ret in H.
  fold (energyBalance_of now p) in H.
  destruct (calculateBatteryLevel (energyBalance_of now p)
              (batteryOptimalCharge p) (recommendation p) (self st3))
    as [soc this'] eqn:Eu.
  injection H as <- <-.
  exists w, f, iot, p, st1, st2, st3.
  cbn [fst snd self].
  repeat split; try assumption; rewrite Eu; reflexivity.
Qed.


Lemma Math_round_ge (a : Z) (y : R) : IZR a <= y -> IZR a <= Math_round y.
Proof.
  intros Ha. unfold Math_round.
  destruct (base_Int_part (y + / 2)) as [Hle Hgt].
  apply IZR_le.
  assert (H : (a - 1 < Int_part (y + / 2))%Z).
  { apply lt_IZR. rewrite minus_IZR. lra. }
  lia.
Qed.

Lemma Math_round_le (b : Z) (y : R) : y <= IZR b -> Math_round y <= IZR b.
Proof.
  intros Hb. unfold Math_round.
  destruct (base_Int_part (y + / 2)) as [Hle Hgt].
  apply IZR_le.
  assert (H : (Int_part (y + / 2) < b + 1)%Z).
  { apply lt_IZR. rewrite plus_IZR. lra. }
  lia.
Qed.

Lemma getDaytimeFactor_range hour : 0 <= getDaytimeFactor hour <= 1.
Proof.
  pose proof PI_RGT_0 as Hpi.
  unfold getDaytimeFactor, Math_sin, Math_PI; cases_cmp; try lra.
  split; [|apply SIN_bound].
  apply sin_ge_0; nra.
Qed.

Lemma getDaytimeFactor_night hour :
  hour <= 6 \/ 18 <= hour -> getDaytimeFactor hour = 0.
Proof.
  intros H. unfold getDaytimeFactor, Math_sin, Math_PI; cases_cmp;
    try reflexivity.
  destruct H as [H | H].
  - replace hour with 6 by lra.
    replace ((6 - 6) / 12 * PI) with 0 by lra. apply sin_0.
  - replace hour with 18 by lra.
    replace ((18 - 6) / 12 * PI) with PI by lra. apply sin_PI.
Qed.

Lemma getLoadPattern_range hour : 0.4 <= getLoadPattern hour <= 1.2.
Proof. unfold getLoadPattern; cases_cmp; lra. Qed.

Lemma predictEnergyEfficiency_in_range now w iot :
  let p := predictEnergyEfficiency now w iot in
  0 <= solarEfficiency p <= 1 /\ 0 <= windEfficiency p <= 1 /\
  0.3 <= loadMultiplier p <= 2.5 /\ 40 <= batteryOptimalCharge p <= 95.
Proof.
  cbv zeta.
  rewrite solarEfficiency_clamped, windEfficiency_clamped, loadMultiplier_clamped.
  repeat split; try (apply clamp_bounds; lra);
    apply calculateOptimalBatteryLevel_range.
Qed.

(** [lo <= Math.round(x * 100) / 100 <= hi] from bounds on [x], the ends
    given in hundredths. *)
Ltac round2 a b :=
  match goal with
  | |- _ <= Math_round (?x * 100) / 100 <= _ =>
      let H := fresh in
      assert (H : IZR a / 100 <= x <= IZR b / 100) by lra;
      apply round2_bounds in H; lra
  end.

(** The fields of a record stay in range when the prediction does. *)
Lemma energyData_of_ranges now w p soc :
  0 <= solarEfficiency p <= 1 ->
  0 <= windEfficiency p <= 1 ->
  0.3 <= loadMultiplier p <= 2.5 ->
  5 <= soc <= 100 ->
  let e := energyData_of now w p soc in
  0 <= solar_gen_kW e <= 300 /\
  0 <= wind_gen_kW e <= 100 /\
  24 <= load_demand_kW e <= 600 /\
  5 <= battery_soc_percent e <= 100 /\
  0 <= grid_import_kW e <= 600 /\
  0 <= grid_export_kW e <= 400 /\
  0 <= carbon_saved_kg e <= 328.
Proof.
  intros Hs Hw Hl Hsoc. cbv zeta. unfold energyData_of.
  cbn [solar_gen_kW wind_gen_kW load_demand_kW battery_soc_percent
       grid_import_kW grid_export_kW carbon_saved_kg].
  pose proof (getDaytimeFactor_range (IZR (getHours now))) as Hd.
  pose proof (getLoadPattern_range (IZR (getHours now))) as Hp.
  set (d := getDaytimeFactor (IZR (getHours now))) in *.
  set (l := getLoadPattern (IZR (getHours now))) in *.
  clearbody d l.
  assert (S : 0 <= 300 * solarEfficiency p * d <= 300) by nra.
  assert (W : 0 <= 100 * windEfficiency p <= 100) by nra.
  assert (L : 24 <= 200 * loadMultiplier p * l <= 600) by nra.
  set (s := 300 * solarEfficiency p * d) in *.
  set (wd := 100 * windEfficiency p) in *.
  set (ld := 200 * loadMultiplier p * l) in *.
  clearbody s wd ld.
  assert (I : 0 <= Math_max 0 (- (s + wd - ld)) <= 600) by (cases_minmax; lra).
  assert (X : 0 <= Math_max 0 (s + wd - ld) <= 400) by (cases_minmax; lra).
  split; [round2 0%Z 30000%Z|]. split; [round2 0%Z 10000%Z|].
  split; [round2 2400%Z 60000%Z|]. split; [round2 500%Z 10000%Z|].
  split; [round2 0%Z 60000%Z|]. split; [round2 0%Z 40000%Z|].
  round2 0%Z 32800%Z.
Qed.

Lemma sensor_step_self w st1 iot st2 :
  sensor_step w st1 iot st2 -> self st2 = self st1.
Proof.
  intros [(_ & d & _ & E) | (_ & _ & ->)]; [|reflexivity].
  destruct (draws_generateIoTSensorData w st1) as (d' & s & E' & Hs & _).
  rewrite E' in E. injection E as _ <-. exact Hs.
Qed.

(** A tick of the class, in full. *)
Lemma generateEnhancedEnergyData_full now st :
  exists w f iot st1 st2,
    generateRealisticWeatherData now (IZR (getHours now)) st = (Return w, st1) /\
    forecast w = Some f /\
    sensor_step w st1 iot st2 /\
    self st1 = self st /\
    let p := predictEnergyEfficiency now w iot in
    let upd :=
      calculateBatteryLevel (energyBalance_of now p)
        (batteryOptimalCharge p) (recommendation p) (self st) in
    generateEnhancedEnergyData now st
    = (Return {| energyData := energyData_of now w p (fst upd);
                 weatherData := w;
                 prediction := p;
                 iotData := iot;
                 result_mode := mode (snd upd) |},
       {| self := snd upd; entropy := entropy st2 |}).
Proof.
  destruct (tick_body_returns now st) as (r & st' & E & _).
  destruct (tick_body_inv_full _ _ _ _ E)
    as (w & f & iot & p & st1 & st2 & st3 & Eg & Ef & Hi & Ep & Hst & Hr).
  unfold this_generateRealisticWeatherData, bind in Eg.
  destruct (generateRealisticWeatherData_returns now (IZR (getHours now)) st)
    as (w0 & st0 & E0 & Hs0 & _).
  rewrite E0 in Eg. unfold ret in Eg. injection Eg as <- <-.
  unfold this_predictEnergyEfficiency, ret in Ep. injection Ep as <- <-.
  pose proof (sensor_step_self Hi) as Hs2.
  exists w0, f, iot, st0, st2.
  repeat (split; [assumption|]).
  cbv zeta in *.
  unfold generateEnhancedEnergyData, generateEnhancedEnergyData_over, try_catch.
  rewrite E, Hr, Hst. rewrite Hs2, Hs0. reflexivity.
Qed.

(** X11. Every record of a tick of the class has solar generation in
    [[0,300]], wind generation in [[0,100]], load demand in [[24,600]],
    battery level in [[5,100]], grid import in [[0,600]], grid export in
    [[0,400]] and carbon saving in [[0,328]]; from 18 o'clock to 6 o'clock
    the solar generation is zero. *)
Theorem generateEnhancedEnergyData_ranges :
  forall (now : Date) (st : Store),
    exists r st',
      generateEnhancedEnergyData now st = (Return r, st') /\
      let e := energyData r in
      0 <= solar_gen_kW e <= 300 /\
      0 <= wind_gen_kW e <= 100 /\
      24 <= load_demand_kW e <= 600 /\
      5 <= battery_soc_percent e <= 100 /\
      0 <= grid_import_kW e <= 600 /\
      0 <= grid_export_kW e <= 400 /\
      0 <= carbon_saved_kg e <= 328 /\
      ((getHours now <= 6)%Z \/ (18 <= getHours now)%Z -> solar_gen_kW e = 0).
Proof.
  intros now st.
  destruct (generateEnhancedEnergyData_full now st)
    as (w & f & iot & st1 & st2 & _ & _ & _ & _ & E).
  cbv zeta in E. eexists _, _. split; [exact E|].
  cbv zeta. cbn [energyData].
  destruct (predictEnergyEfficiency_in_range now w iot) as (Hs & Hw & Hl & _).
  match goal with |- context [energyData_of now w ?p ?soc] =>
    assert (Hsoc : 5 <= soc <= 100)
      by (rewrite returned_is_clamped; apply clamp_bounds; lra);
    destruct (@energyData_of_ranges now w _ _ Hs Hw Hl Hsoc)
      as (R1 & R2 & R3 & R4 & R5 & R6 & R7)
  end.
  repeat (split; [assumption|]).
  intros Hh. unfold energyData_of; cbn [solar_gen_kW].
  rewrite getDaytimeFactor_night.
  - replace (300 * _ * 0 * 100) with (0 * 100) by lra. apply Math_round_zero.
  - destruct Hh as [Hh | Hh]; apply IZR_le in Hh; [left | right]; exact Hh.
Qed.

(** X12. In a tick that left its [try] block normally, the forecast
    label and the grid exchange agree: [Surplus] comes with no import and
    an export of at least 20, [Deficit] with no export and an import of at
    least 20, [Balanced] with import and export of at most 20. *)
Theorem forecast_label_agrees_with_grid :
  forall gen predict (now : Date) (st st' : Store) (r : TickResult),
    tick_body gen predict now st = (Return r, st') ->
    let e := energyData r in
    match forecast_label e with
    | Surplus => grid_import_kW e = 0 /\ 20 <= grid_export_kW e
    | Deficit => grid_export_kW e = 0 /\ 20 <= grid_import_kW e
    | Balanced => 0 <= grid_import_kW e <= 20 /\ 0 <= grid_export_kW e <= 20
    end.
Proof.
  intros gen predict now st st' r H.
  destruct (tick_body_inv_full _ _ _ _ H)
    as (w & f & iot & p & st1 & st2 & st3 & _ & _ & _ & _ & _ & ->).
  cbv zeta. cbn [energyData]. unfold energyData_of.
  cbn [forecast_label grid_import_kW grid_export_kW].
  set (b := 300 * solarEfficiency p * getDaytimeFactor (IZR (getHours now))
            + 100 * windEfficiency p
            - 200 * loadMultiplier p * getLoadPattern (IZR (getHours now))).
  clearbody b.
  cases_cmp.
  - split.
    + replace (Math_max 0 (- b)) with 0 by (cases_minmax; lra).
      apply Math_round_zero.
    + assert (G : IZR 2000 <= Math_round (Math_max 0 b * 100))
        by (apply Math_round_ge; cases_minmax; lra).
      lra.
  - split.
    + replace (Math_max 0 b) with 0 by (cases_minmax; lra).
      apply Math_round_zero.
    + assert (G : IZR 2000 <= Math_round (Math_max 0 (- b) * 100))
        by (apply Math_round_ge; cases_minmax; lra).
      lra.
  - split.
    + assert (G : 0 <= Math_max 0 (- b) <= 20) by (cases_minmax; lra).
      round2 0%Z 2000%Z.
    + assert (G : 0 <= Math_max 0 b <= 20) by (cases_minmax; lra).
      round2 0%Z 2000%Z.
Qed.

Lemma forecast_label_agrees_with_grid_witness :
  exists r st',
    generateEnhancedEnergyData may_evening fresh_store = (Return r, st') /\
    match forecast_label (energyData r) with
    | Surplus =>
        grid_import_kW (energyData r) = 0 /\ 20 <= grid_export_kW (energyData r)
    | Deficit =>
        grid_export_kW (energyData r) = 0 /\ 20 <= grid_import_kW (energyData r)
    | Balanced =>
        0 <= grid_import_kW (energyData r) <= 20 /\
        0 <= grid_export_kW (energyData r) <= 20
    end.
Proof.
  destruct (generateEnhancedEnergyData_normal may_evening fresh_store)
    as (r & st' & w & iot & E & Eb & _).
  exists r, st'. split; [exact E|].
  apply (forecast_label_agrees_with_grid _ _ _ _ Eb).
Defined.


Lemma calculateBatteryLevel_keeps_config b o r this :
  mode (snd (calculateBatteryLevel b o r this)) = mode this /\
  weatherApiKey (snd (calculateBatteryLevel b o r this)) = weatherApiKey this.
Proof.
  unfold calculateBatteryLevel; cbn [snd].
  destruct r; repeat (destruct (_ && _)); split; reflexivity.
Qed.

(** X14. A tick of the class leaves the mode and the api key as they
    were and reports the mode it ran in. It carries a sensor reading
    exactly when the mode is "offline"; its prediction is the one for its
    own sample and reading, and the record repeats the condition and the
    temperature of the sample. *)
Theorem generateEnhancedEnergyData_mode :
  forall (now : Date) (st : Store),
    exists r st',
      generateEnhancedEnergyData now st = (Return r, st') /\
      mode (self st') = mode (self st) /\
      weatherApiKey (self st') = weatherApiKey (self st) /\
      result_mode r = mode (self st) /\
      (mode (self st) = "offline"%string <-> iotData r <> None) /\
      prediction r
      = predictEnergyEfficiency now (weatherData r) (iotData r) /\
      weather (energyData r) = condition (weatherData r) /\
      record_temperature (energyData r) = temperature (weatherData r).
Proof.
  intros now st.
  destruct (generateEnhancedEnergyData_full now st)
    as (w & f & iot & st1 & st2 & _ & _ & Hi & Hs1 & E).
  cbv zeta in E. eexists _, _. split; [exact E|].
  cbn [self result_mode iotData prediction weatherData energyData].
  match goal with |- context [calculateBatteryLevel ?b ?o ?r (self st)] =>
    destruct (calculateBatteryLevel_keeps_config b o r (self st)) as [Hm Hk]
  end.
  split; [exact Hm|]. split; [exact Hk|]. split; [exact Hm|].
  split; [|repeat split].
  rewrite <- Hs1.
  destruct Hi as [(Hoff & d & -> & _) | (Hon & -> & _)]; split; intros H;
    try assumption; try discriminate; try contradiction.
Qed.

Lemma tick_keeps_band now st :
  level_in_band (self st) ->
  level_in_band (self (snd (generateEnhancedEnergyData now st))) /\
  mode (self (snd (generateEnhancedEnergyData now st))) = mode (self st).
Proof.
  intros B.
  destruct (generateEnhancedEnergyData_full now st)
    as (w & f & iot & st1 & st2 & _ & _ & _ & _ & E).
  cbv zeta in E. rewrite E. cbn [snd self].
  split.
  - apply (@apply_update_band (self st)
             {| u_balance := energyBalance_of now (predictEnergyEfficiency now w iot);
                u_optimal := batteryOptimalCharge (predictEnergyEfficiency now w iot);
                u_recommendation := recommendation (predictEnergyEfficiency now w iot) |});
      [|exact B].
    cbn [u_optimal]. apply predictEnergyEfficiency_in_range.
  - apply calculateBatteryLevel_keeps_config.
Qed.

(** X15. Ticks keep the battery in its band: from a store whose level is
    strictly between 18.5 and 97, as the seed 60 is, any number of ticks
    of the class leaves it there and leaves the mode alone; the next tick
    then reports the stored level itself, rounded to two decimals, a
    value in [[18.5,97]]. *)
Theorem run_ticks_keep_band :
  forall (dates : list Date) (st : Store),
    18.5 < batteryLevel (self st) < 97 ->
    let st_n := run_ticks dates st in
    18.5 < batteryLevel (self st_n) < 97 /\
    mode (self st_n) = mode (self st) /\
    forall now, exists r st',
      generateEnhancedEnergyData now st_n = (Return r, st') /\
      battery_soc_percent (energyData r)
      = Math_round (batteryLevel (self st') * 100) / 100 /\
      18.5 <= battery_soc_percent (energyData r) <= 97.
Proof.
  intros dates. induction dates as [|d dates IH]; intros st B; cbn [run_ticks].
  - cbv zeta. split; [exact B|]. split; [reflexivity|].
    intros now.
    destruct (@tick_keeps_band now st B) as [B' _].
    destruct (generateEnhancedEnergyData_full now st)
      as (w & f & iot & st1 & st2 & _ & _ & _ & _ & E).
    cbv zeta in E. rewrite E in B'. cbn [snd self] in B'.
    eexists _, _. split; [exact E|].
    cbn [energyData self]. unfold energyData_of; cbn [battery_soc_percent].
    rewrite returned_is_clamped.
    unfold level_in_band in B'.
    rewrite clamp_id by lra.
    split; [reflexivity|].
    round2 1850%Z 9700%Z.
  - destruct (@tick_keeps_band d st B) as [B' M'].
    destruct (IH _ B') as (H1 & H2 & H3).
    cbv zeta. split; [exact H1|]. split; [congruence | exact H3].
Qed.

Lemma run_ticks_keep_band_witness :
  18.5 < batteryLevel (self (run_ticks [may_evening; july_night] fresh_store)) < 97.
Proof.
  apply run_ticks_keep_band.
  unfold fresh_store, weatherBasedEnergySimulator, new_simulator;
    cbn [self batteryLevel]; lra.
Defined.

(** ** Switching modes *)

(** X16. Calls of [setMode] compose: after two calls the mode is the
    second one's, and the api key is the last non-empty key passed, or the
    old key when none was. A key once set is never cleared: neither an
    absent nor an empty key argument removes it. *)
Theorem setMode_composes :
  forall (m1 m2 : string) (k1 k2 : option string) (st : Store),
    exists st1 st2,
      setMode m1 k1 st = (Return tt, st1) /\
      setMode m2 k2 st1 = (Return tt, st2) /\
      mode (self st2) = m2 /\
      weatherApiKey (self st2)
      = (if truthy k2 then match k2 with Some k => k | None => EmptyString end
         else if truthy k1 then match k1 with Some k => k | None => EmptyString end
         else weatherApiKey (self st)) /\
      (weatherApiKey (self st) <> EmptyString ->
         weatherApiKey (self st1) <> EmptyString /\
         weatherApiKey (self st2) <> EmptyString) /\
      (truthy k2 = false -> setMode m2 k2 st2 = (Return tt, st2)).
Proof.
  intros m1 m2 k1 k2 st.
  unfold setMode, on_this. eexists _, _.
  split; [reflexivity|]. split; [reflexivity|].
  cbn [self entropy].
  assert (T : forall k, truthy (Some k) = true -> k <> EmptyString).
  { intros k H ->. discriminate. }
  destruct k1 as [k1|], k2 as [k2|]; cbn [truthy];
    try destruct (negb (String.eqb k1 EmptyString)) eqn:E1;
    try destruct (negb (String.eqb k2 EmptyString)) eqn:E2;
    cbn [mode weatherApiKey batteryLevel];
    repeat split; intros; try assumption; try discriminate;
    try (apply T; cbn [truthy]; assumption).
Qed.

(** ** Advisories *)

Lemma rule_step_wret : rule_step (wret tt).
Proof.
  intros l; exists []. rewrite app_nil_r.
  split; [reflexivity|]. split; [apply Nat.le_0_l | constructor].
Qed.

Lemma rule_step_push (a : Advice) : urgent a -> rule_step (push a).
Proof.
  intros U l; exists [a].
  split; [reflexivity|]. split; [apply Nat.le_refl|].
  constructor; [exact U | constructor].
Qed.

Lemma rule_step_read (e : EnergyRecord) (k : R -> W unit) :
  rule_step (k (battery_soc_percent e)) ->
  rule_step (wbind (read_battery_soc_percent (Some e)) k).
Proof. intros H l; exact (H l). Qed.

Lemma wbind_returns {A B} (c : W A) (k : A -> W B) l a l1 :
  c l = (Return a, l1) -> wbind c k l = k a l1.
Proof. intros E; unfold wbind; rewrite E; reflexivity. Qed.

Lemma wbind_throws {A B} (c : W A) (k : A -> W B) l e l1 :
  c l = (Throw e, l1) -> wbind c k l = (Throw e, l1).
Proof. intros E; unfold wbind; rewrite E; reflexivity. Qed.

Lemma concludes_step this n (c k : W unit) :
  rule_step c -> concludes this (S n) k ->
  concludes this n (wbind c (fun _ => k)).
Proof.
  intros Hc Hk l Hl Ul.
  destruct (Hc l) as (l2 & E & L2 & U2).
  destruct (Hk (l ++ l2)) as (l3 & E3 & A3).
  - rewrite length_app. lia.
  - apply Forall_app; split; assumption.
  - exists (l2 ++ l3). erewrite wbind_returns by exact E.
    rewrite app_assoc. split; assumption.
Qed.

Lemma concludes_final this :
  concludes this 6
    (fun recommendations =>
       (if Nat.eqb (length recommendations) 0
        then push (default_advice this) else wret tt) recommendations).
Proof.
  intros l Hl Ul. destruct l as [|a l].
  - exists [default_advice this]. split; [reflexivity|]. right; reflexivity.
  - exists []. rewrite app_nil_r. split; [reflexivity|].
    left. split; [exact Ul|]. cbn [length] in *. lia.
Qed.

(** Discharge [rule_step] for a rule of the body, the record present. *)
Ltac solve_rule :=
  repeat match goal with
    | |- rule_step (match ?x with _ => _ end) => destruct x
    | |- rule_step (wbind (read_battery_soc_percent (Some _)) _) =>
        apply rule_step_read
    end;
  first [ apply rule_step_wret
        | apply rule_step_push; split; [reflexivity | discriminate] ].

(** Run the first rule of what is left of the body. *)
Ltac rule_forward :=
  match goal with
  | |- context [wbind ?c (fun _ => ?k) ?l] =>
      let R := fresh "R" in
      let a := fresh "a" in
      let E := fresh "E" in
      let L := fresh "L" in
      let U := fresh "U" in
      assert (R : rule_step c) by solve_rule;
      destruct (R l) as (a & E & L & U);
      erewrite wbind_returns by exact E;
      clear R E
  end.

Lemma smart_recommendations_body_concludes toS now this e w p :
  concludes this 0 (smart_recommendations_body toS now this (Some e) w p).
Proof.
  unfold smart_recommendations_body.
  do 6 (apply concludes_step; [solve_rule|]).
  apply concludes_final.
Qed.

Lemma ends_nonempty_step {A} (c : W A) (k : W unit) :
  ends_nonempty k -> ends_nonempty (wbind c (fun _ => k)).
Proof.
  intros Hk l. unfold wbind.
  destruct (c l) as [[a | e] l1]; [apply Hk | exact I].
Qed.

Lemma ends_nonempty_final this :
  ends_nonempty
    (fun recommendations =>
       (if Nat.eqb (length recommendations) 0
        then push (default_advice this) else wret tt) recommendations).
Proof.
  intros [|a l]; cbn; discriminate.
Qed.

(** X17. [generateSmartRecommendations] never returns an empty list,
    whatever it is given, a missing record included: a throw inside is
    answered with the safe-mode entry. With the record missing and more
    than 70 percent cloud forecast in six hours, the answer is that entry
    alone. *)
Theorem generateSmartRecommendations_never_empty :
  forall (Number_toString : R -> string) (now : Date) (this : Simulator)
         (energyData : option EnergyRecord) (weatherData : WeatherData)
         (prediction : EnergyPrediction),
    generateSmartRecommendations Number_toString now this energyData
      weatherData prediction <> [] /\
    (forall fc e6,
       energyData = None ->
       forecast weatherData = Some fc -> next6h fc = Some e6 ->
       fc_cloudCover e6 > 70 ->
       generateSmartRecommendations Number_toString now this energyData
         weatherData prediction = [safe_mode_advice]).
Proof.
  intros toS now this energyData w p. split.
  - unfold generateSmartRecommendations, wcatch.
    assert (H : ends_nonempty
                  (smart_recommendations_body toS now this energyData w p)).
    { unfold smart_recommendations_body.
      do 6 apply ends_nonempty_step. apply ends_nonempty_final. }
    specialize (H []).
    destruct (smart_recommendations_body toS now this energyData w p [])
      as [[u | e] l]; cbn [snd].
    + exact H.
    + unfold push; cbn [snd]. destruct l; discriminate.
  - intros fc e6 -> Ef E6 Hc.
    unfold generateSmartRecommendations, wcatch, smart_recommendations_body.
    rewrite Ef, E6.
    apply gt_true in Hc. rewrite Hc.
    reflexivity.
Qed.

Lemma generateSmartRecommendations_never_empty_witness :
  generateSmartRecommendations (fun _ => "?"%string) may_evening
    weatherBasedEnergySimulator None
    {| condition := cloudy; temperature := 30; humidity := 50; windSpeed := 5;
       cloudCover := 20; uvIndex := 6; visibility := 10;
       forecast := Some {|
         next1h := None;
         next6h := Some {| fc_condition := cloudy; fc_temperature := 30;
                           fc_windSpeed := 5; fc_cloudCover := 80 |};
         next24h := None |} |}
    fallbackPrediction
  = [safe_mode_advice].
Proof.
  eapply generateSmartRecommendations_never_empty;
    [reflexivity | reflexivity | reflexivity | cbn; lra].
Defined.

(** X19. Given a record, [generateSmartRecommendations] never throws
    inside: its answer is either between one and six entries, all weather
    based and of high or medium priority, or the default entry alone. So
    an entry of low priority appears only as that single default, and no
    entry is the safe-mode one. Under [prepare_for_peak] the answer
    holds the high-priority entry that names the optimal level. *)
Theorem generateSmartRecommendations_shape :
  forall (Number_toString : R -> string) (now : Date) (this : Simulator)
         (e : EnergyRecord) (weatherData : WeatherData)
         (prediction : EnergyPrediction),
    let l := generateSmartRecommendations Number_toString now this (Some e)
               weatherData prediction in
    ((Forall (fun a => weatherBased a = true /\ priority a <> low) l /\
      (1 <= length l <= 6)%nat)
     \/ l = [default_advice this]) /\
    Forall (fun a => weatherBased a = true) l /\
    (forall a, In a l -> priority a = low -> l = [default_advice this]) /\
    ~ In safe_mode_advice l /\
    (recommendation prediction = prepare_for_peak ->
       In {| message := "High load period approaching - ensure battery readiness";
             priority := high;
             icon := icon_battery;
             action :=
               Some ("Charge battery to "
                     ++ Number_toString (batteryOptimalCharge prediction)
                     ++ "%")%string;
             weatherBased := true |} l).
Proof.
  intros toS now this e w p l.
  destruct (@smart_recommendations_body_concludes toS now this e w p [])
    as (l2 & E & A); [apply Nat.le_refl | constructor |].
  assert (El : l = l2).
  { subst l. unfold generateSmartRecommendations, wcatch. rewrite E.
    reflexivity. }
  cbn [app] in A. rewrite <- El in A.
  split; [exact A|]. split; [|split; [|split]].
  - destruct A as [[U _] | ->].
    + eapply Forall_impl; [|exact U]. intros a [H _]; exact H.
    + repeat constructor.
  - intros a Ha Hlow. destruct A as [[U _] | ->]; [|reflexivity].
    rewrite Forall_forall in U. destruct (U a Ha) as [_ H]. contradiction.
  - intros Hin. destruct A as [[U _] | A].
    + rewrite Forall_forall in U. destruct (U _ Hin) as [H _]. discriminate.
    + rewrite A in Hin. destruct Hin as [H | []]. discriminate.
  - intros Hrec. subst l.
    unfold generateSmartRecommendations, wcatch, smart_recommendations_body.
    do 4 rule_forward. rewrite Hrec.
    match goal with |- context [wbind (push ?h) (fun _ => ?k) ?l4] =>
      assert (C : concludes this 5 k)
        by (apply concludes_step; [solve_rule | apply concludes_final]);
      destruct (C (l4 ++ [h])) as (l5 & E5 & _);
      [ repeat rewrite length_app; cbn [length]; lia
      | repeat (apply Forall_app; split); try assumption;
        repeat constructor; discriminate
      | erewrite wbind_returns by reflexivity; rewrite E5 ]
    end.
    cbn [snd]. apply in_or_app. left. apply in_or_app. right. left. reflexivity.
Qed.

(** ** Metrics, battery status and advice of the dashboard *)

Import EnergyDataSimulator.

Lemma ratio_in_unit (g i : R) : 0 < g -> 0 <= i -> 0 < g / (g + i) <= 1.
Proof.
  intros Hg Hi.
  assert (P : 0 < g + i) by lra.
  split.
  - apply Rdiv_lt_0_compat; assumption.
  - apply (Rmult_le_reg_r (g + i)); [exact P|].
    unfold Rdiv. rewrite Rmult_assoc, Rinv_l by lra. lra.
Qed.

(** X20. For a record whose grid import is not negative, the efficiency
    [getCurrentMetrics] reports is a percentage in [[0,100]]: 0 when
    nothing is generated, 100 when something is and nothing is imported.
    The other metrics repeat the record, the total being solar plus
    wind. *)
Theorem getCurrentMetrics_efficiency :
  forall data : EnergyRecord,
    0 <= grid_import_kW data ->
    let m := getCurrentMetrics data in
    0 <= efficiency m <= 100 /\
    (solar_gen_kW data + wind_gen_kW data <= 0 -> efficiency m = 0) /\
    (0 < solar_gen_kW data + wind_gen_kW data -> grid_import_kW data = 0 ->
       efficiency m = 100) /\
    totalGeneration m = solar_gen_kW data + wind_gen_kW data /\
    gridUsage m = grid_import_kW data /\
    metrics_batteryLevel m = battery_soc_percent data /\
    currentLoad m = load_demand_kW data.
Proof.
  intros data Hi m; subst m. unfold getCurrentMetrics.
  cbn [efficiency totalGeneration gridUsage metrics_batteryLevel currentLoad].
  set (g := solar_gen_kW data + wind_gen_kW data).
  set (i := grid_import_kW data) in *.
  clearbody g i.
  split; [|split; [|split; [|repeat split]]].
  - cases_cmp.
    + pose proof (ratio_in_unit E Hi) as Hq.
      set (q := g / (g + i)) in *. clearbody q.
      assert (B : 0 <= Math_min 100 (q * 100) <= 100) by (cases_minmax; lra).
      round2 0%Z 10000%Z.
    + round2 0%Z 10000%Z.
  - intros Hg. assert (G : (g >? 0) = false) by (apply gt_false; exact Hg).
    rewrite G. apply Math_round_zero.
  - intros Hg ->. assert (G : (g >? 0) = true) by (apply gt_true; exact Hg).
    rewrite G.
    replace (g / (g + 0)) with 1 by (field; lra).
    replace (Math_min 100 (1 * 100) * 100) with 10000 by (cases_minmax; lra).
    rewrite (Math_round_IZR 10000). lra.
Qed.

Lemma getCurrentMetrics_efficiency_witness :
  efficiency (getCurrentMetrics (fallbackEnergyData may_evening)) = 100.
Proof.
  apply getCurrentMetrics_efficiency;
    unfold fallbackEnergyData;
    cbn [grid_import_kW solar_gen_kW wind_gen_kW]; lra.
Defined.


(** X21. The battery status follows the balance of generation less
    demand: [Charging] above 10, [Discharging] below -10, [Standby] in
    between with rate 0. When charging, the rate is 5 percent of the
    balance, above 0.5, and rate times time-to-full is the headroom
    [100 - level]; when discharging, the rate is 3 percent of the deficit,
    above 0.3, and rate times time-to-empty is the level. *)
Theorem getBatteryStatus_shape :
  forall data : EnergyRecord,
    let balance := solar_gen_kW data + wind_gen_kW data - load_demand_kW data in
    let s := getBatteryStatus data in
    0 <= rate s /\
    (status s = Charging <-> balance > 10) /\
    (status s = Discharging <-> balance < -10) /\
    (status s = Standby <-> -10 <= balance <= 10) /\
    (status s = Standby ->
       rate s = 0 /\ timeToFull s = None /\ timeToEmpty s = None) /\
    (status s = Charging ->
       rate s = balance * 0.05 /\ 0.5 < rate s /\ timeToEmpty s = None /\
       exists t, timeToFull s = Some t /\
                 t * rate s = 100 - battery_soc_percent data) /\
    (status s = Discharging ->
       rate s = - balance * 0.03 /\ 0.3 < rate s /\ timeToFull s = None /\
       exists t, timeToEmpty s = Some t /\
                 t * rate s = battery_soc_percent data).
Proof.
  intros data balance s; subst s. unfold getBatteryStatus. fold balance.
  set (soc := battery_soc_percent data). clearbody balance soc.
  cases_cmp; cbn [status rate timeToFull timeToEmpty];
    (split; [cases_minmax; lra|]);
    repeat split; intros; try discriminate; try lra; try reflexivity;
    try (cases_minmax; lra).
  - eexists; split; [reflexivity|].
    unfold Math_abs. rewrite Rabs_right by lra. field. lra.
  - eexists; split; [reflexivity|].
    unfold Math_abs. rewrite Rabs_left by lra. field. lra.
Qed.

(** Name every entry that the goal may append, so that the case analysis
    runs on small terms; [unname_entries] puts them back. *)
Ltac name_entries :=
  repeat match goal with
    | |- context [@cons ?T ?x (@nil ?T)] =>
        tryif is_var x then fail
        else (let v := fresh "entry" in set (v := x))
    end.

Ltac unname_entries :=
  repeat match goal with v := _ |- _ => subst v end.

(** Split on every conditional of the goal that tests the record. *)
Ltac cases_if :=
  repeat match goal with
    | |- context [if ?b then _ else _] =>
        lazymatch b with
        | Nat.ltb _ _ => fail
        | _ => destruct b
        end
    end.

Lemma nondecreasing_from_sorted {A} (f : A -> nat) (l : list A) : forall n,
  nondecreasing_from n (map f l) = true ->
  StronglySorted (fun a b => (f a <= f b)%nat) l /\
  Forall (fun a => (n <= f a)%nat) l.
Proof.
  induction l as [|a l IH]; intros n H; cbn [map nondecreasing_from] in H.
  - split; constructor.
  - apply andb_true_iff in H. destruct H as [Hn H].
    apply Nat.leb_le in Hn.
    destruct (IH _ H) as [S F].
    split.
    + constructor; assumption.
    + constructor; [exact Hn|].
      eapply Forall_impl; [|exact F]. cbv beta; intros; lia.
Qed.

Lemma nondecreasing_sorted {A} (f : A -> nat) (l : list A) :
  nondecreasing_from 0 (map f l) = true ->
  StronglySorted (fun a b => (f a <= f b)%nat) l.
Proof. intros H; apply (nondecreasing_from_sorted f l 0 H). Qed.

(** X22. [getRecommendations] never answers with an empty list: when no
    rule fires it gives one low-priority entry. It gives at most seven
    entries, ordered by priority, high before medium before low, each
    with an action; a battery below 20 percent always comes first. *)
Theorem getRecommendations_sorted :
  forall data : EnergyRecord,
    let l := getRecommendations data in
    l <> [] /\
    (length l <= 7)%nat /\
    StronglySorted
      (fun a b => (priority_rank (r_priority a) <= priority_rank (r_priority b))%nat)
      l /\
    Forall (fun a => r_action a <> None) l /\
    (battery_soc_percent data < 20 ->
       exists rest,
         l = {| r_message := "Battery critically low - immediate charging required";
                r_priority := high;
                r_icon := icon_red_circle;
                r_action := Some "Switch to grid power and charge battery"%string |}
             :: rest).
Proof.
  intros data l; subst l. unfold getRecommendations. name_entries.
  destruct (battery_soc_percent data <? 20) eqn:E20;
    [apply lt_true in E20 | apply lt_false in E20];
    cases_if; cbn [app length Nat.ltb Nat.leb]; unname_entries;
    (split; [discriminate|]);
    (split; [apply Nat.leb_le; reflexivity|]);
    (split; [apply nondecreasing_sorted; reflexivity|]);
    (split; [repeat (constructor; [discriminate|]); constructor|]);
    intros H; first [exfalso; lra | eexists; reflexivity].
Qed.

Lemma getRecommendations_sorted_witness :
  exists rest,
    getRecommendations
      {| timestamp := EmptyString; solar_gen_kW := 0; wind_gen_kW := 10;
         load_demand_kW := 120; battery_soc_percent := 15;
         grid_import_kW := 110; grid_export_kW := 0; weather := clear_night;
         forecast_label := Deficit; record_temperature := 20;
         carbon_saved_kg := 8.2 |}
    = {| r_message := "Battery critically low - immediate charging required";
         r_priority := high;
         r_icon := icon_red_circle;
         r_action := Some "Switch to grid power and charge battery"%string |}
      :: rest.
Proof.
  apply getRecommendations_sorted. cbn [battery_soc_percent]. lra.
Defined.

(** Settle [In x l <-> P] for an explicit list [l], [P] or its negation
    being known. *)
Ltac settle_in :=
  split; intros H; try lra; try assumption;
  repeat match goal with
    | H : _ \/ _ |- _ => destruct H
    | H : False |- _ => contradiction
    | H : _ = _ |- _ => discriminate H
    end;
  auto 10.

(** X23. Alerts and recommendations agree on the two urgent conditions:
    the error alert for a critically low battery is raised exactly when
    the level is below 20, which is exactly when the matching
    recommendation is given, and likewise the warning and the
    recommendation for a grid import above 100. There are at most four
    alerts. *)
Theorem getAlerts_agree_with_getRecommendations :
  forall (now : Date) (data : EnergyRecord),
    let alerts := getAlerts now data in
    let recs := getRecommendations data in
    (length alerts <= 4)%nat /\
    (In {| alert_type := error; alert_message := "Battery critically low" |} alerts
     <-> battery_soc_percent data < 20) /\
    (In {| r_message := "Battery critically low - immediate charging required";
           r_priority := high;
           r_icon := icon_red_circle;
           r_action := Some "Switch to grid power and charge battery"%string |}
        recs
     <-> battery_soc_percent data < 20) /\
    (In {| alert_type := warning; alert_message := "High grid demand detected" |}
        alerts
     <-> grid_import_kW data > 100) /\
    (In {| r_message := "High grid demand detected - reduce non-essential loads";
           r_priority := high;
           r_icon := icon_warning;
           r_action := Some "Turn off AC, lighting in unused areas"%string |}
        recs
     <-> grid_import_kW data > 100).
Proof.
  intros now data alerts recs; subst alerts recs.
  split; [unfold getAlerts; name_entries; cases_if; cbn [app length]; lia|].
  split; [|split; [|split]].
  - unfold getAlerts. name_entries.
    destruct (battery_soc_percent data <? 20) eqn:E20;
      [apply lt_true in E20 | apply lt_false in E20];
      cases_if; cbn [app In]; unname_entries; settle_in.
  - unfold getRecommendations. name_entries.
    destruct (battery_soc_percent data <? 20) eqn:E20;
      [apply lt_true in E20 | apply lt_false in E20];
      cases_if; cbn [app length Nat.ltb Nat.leb In]; unname_entries; settle_in.
  - unfold getAlerts. name_entries.
    destruct (grid_import_kW data >? 100) eqn:E100;
      [apply gt_true in E100 | apply gt_false in E100];
      cases_if; cbn [app In]; unname_entries; settle_in.
  - unfold getRecommendations. name_entries.
    destruct (grid_import_kW data >? 100) eqn:E100;
      [apply gt_true in E100 | apply gt_false in E100];
      cases_if; cbn [app length Nat.ltb Nat.leb In]; unname_entries; settle_in.
Qed.

(** ** More on the prediction *)

Lemma heatLoad_pos season : 0 < heatLoad (rajashtanSeasonalFactors season).
Proof. destruct season; cbn [rajashtanSeasonalFactors heatLoad]; lra. Qed.

Lemma load_factors_at_least_one now w : 1 <= load_factors now w.
Proof.
  unfold load_factors. cbv zeta.
  pose proof (heatLoad_pos (getCurrentSeason now)) as Hh.
  set (heat := heatLoad (rajashtanSeasonalFactors (getCurrentSeason now))) in *.
  clearbody heat.
  assert (T : 1 <= (if Rlt_dec 30 (temperature w)
                    then 1 + Rpower ((temperature w - 30) / 10) 1.5 * heat
                    else if Rlt_dec (temperature w) 15
                         then 1 + (15 - temperature w) * 0.1 * heat
                         else 1)).
  { destruct (Rlt_dec 30 (temperature w)).
    - assert (P : 0 < Rpower ((temperature w - 30) / 10) 1.5)
        by (unfold Rpower; apply exp_pos).
      nra.
    - destruct (Rlt_dec (temperature w) 15); nra. }
  destruct (Rlt_dec 70 (humidity w)); nra.
Qed.

(** X25. The predicted load multiplier is never below 1: heat, cold and
    humidity only add load, so the lower clamp at 0.3 is never the value
    returned. It is exactly 1 for a temperature from 15 to 30 and a
    humidity of at most 70. *)
Theorem loadMultiplier_at_least_one :
  forall (now : Date) (weather : WeatherData) (iotData : option IoTSensorData),
    let p := predictEnergyEfficiency now weather iotData in
    1 <= loadMultiplier p <= 2.5 /\
    loadMultiplier p = Rmin 2.5 (load_factors now weather) /\
    (15 <= temperature weather <= 30 -> humidity weather <= 70 ->
       loadMultiplier p = 1).
Proof.
  intros now weather iotData p; subst p.
  rewrite loadMultiplier_clamped.
  pose proof (load_factors_at_least_one now weather) as H.
  split; [cases_minmax; lra|]. split; [cases_minmax; lra|].
  intros Ht Hh.
  assert (E : load_factors now weather = 1).
  { unfold load_factors; cbv zeta.
    destruct (Rlt_dec 30 (temperature weather)); [lra|].
    destruct (Rlt_dec (temperature weather) 15); [lra|].
    destruct (Rlt_dec 70 (humidity weather)); lra. }
  rewrite E. cases_minmax; lra.
Qed.

(** X27. For a sample synthesized from draws in [[0,1)], the predicted
    wind efficiency is never clamped: it is the wind curve times the
    air-density factor, between 0.05 and 0.91. The solar factors multiply
    to a value between 0 and 1.1, so only the upper clamp can act on the
    solar efficiency; at night their product is at most 0.275. *)
Theorem prediction_of_synthesized_sample :
  forall (now : Date) (hour : R) (st : Store),
    unit_source st ->
    exists w st',
      generateRealisticWeatherData now hour st = (Return w, st') /\
      forall iotData,
        let p := predictEnergyEfficiency now w iotData in
        windEfficiency p = wind_factors w /\
        0.05 <= windEfficiency p <= 0.91 /\
        0 <= solar_factors now w iotData <= 1.1 /\
        solarEfficiency p = Rmin 1 (solar_factors now w iotData) /\
        (hour < 6 \/ hour > 19 -> solarEfficiency p <= 0.275).
Proof.
  intros now hour st U.
  destruct (udraws_generateRealisticWeatherData now hour U)
    as (w & st' & E & _ & _ & Hs & Hn & Huv & Huv2 & Hvis & Ht & _).
  exists w, st'. split; [exact E|]. intros iotData p; subst p.
  assert (Hcc : 0 <= cloudCover w <= 100 /\ 2 <= windSpeed w <= 11).
  { destruct (getCurrentSeason now); cbn [seasonal_ranges] in Hs; lra. }
  assert (HT : 8.5 <= temperature w <= 48.5).
  { destruct (getCurrentSeason now);
      cbn [getSeasonalBaseTemperature getTemperatureRange] in Ht; lra. }
  assert (Hv : 1 <= visibility w <= 15).
  { destruct (condition w); cbn [visibility_range] in Hvis; lra. }
  destruct Hcc as [Hcc Hws].
  assert (W : 0.05 <= wind_factors w <= 0.91).
  { unfold wind_factors.
    set (dens := 1 + (25 - temperature w) * 0.005).
    assert (D : 0.8825 <= dens <= 1.0825) by (subst dens; lra).
    clearbody dens.
    destruct (Rlt_dec (windSpeed w) 3); [nra|].
    destruct (Rlt_dec 15 (windSpeed w)); [lra|].
    assert (Q : 0.0625 <= windSpeed w / 12 * (windSpeed w / 12) <= 0.8403)
      by nra.
    unfold Rmin. destruct (Rle_dec 1 _); nra. }
  assert (S : 0 <= solar_factors now w iotData <= 1.1 /\
              (uvIndex w = 2 -> solar_factors now w iotData <= 0.275)).
  { unfold solar_factors.
    set (c := (100 - cloudCover w) / 100).
    assert (C : 0 <= c <= 1) by (subst c; lra).
    set (d := Rmax 0.7 (1 - Rmax 0 (temperature w - 25) * 0.004)).
    assert (D : 0.7 <= d <= 1) by (subst d; cases_minmax; lra).
    set (u := Rmin 1 (uvIndex w / 8)).
    assert (Uu : 0 <= u <= 1 /\ (uvIndex w = 2 -> u = 0.25))
      by (subst u; split; [|intros ->]; cases_minmax; lra).
    set (v := Rmin 1 (visibility w / 10)).
    assert (V : 0 <= v <= 1) by (subst v; cases_minmax; lra).
    set (b := solarBoost (rajashtanSeasonalFactors (getCurrentSeason now))).
    assert (B : 0.6 <= b <= 1.1)
      by (subst b; destruct (getCurrentSeason now);
          cbn [rajashtanSeasonalFactors solarBoost]; lra).
    set (k := match iotData with
              | Some d0 =>
                  (if Rlt_dec 60 (panelTemperature d0) then 0.9 else 1)
                  * (if Rlt_dec (ambientLight d0) 20000 then 0.8 else 1)
              | None => 1
              end).
    assert (K : 0.72 <= k <= 1).
    { subst k. destruct iotData as [d0|]; [|lra].
      destruct (Rlt_dec 60 (panelTemperature d0));
        destruct (Rlt_dec (ambientLight d0) 20000); lra. }
    clearbody c d u v b k.
    destruct Uu as [Uu Uu2].
    assert (P1 : 0 <= c * d <= 1) by nra.
    assert (P2 : 0 <= c * d * u <= 1) by nra.
    assert (P3 : 0 <= c * d * u * v <= 1) by nra.
    assert (P4 : 0 <= c * d * u * v * b <= 1.1) by nra.
    split; [nra|].
    intros Hu. rewrite (Uu2 Hu) in *.
    assert (Q2 : 0 <= c * d * 0.25 <= 0.25) by nra.
    assert (Q3 : 0 <= c * d * 0.25 * v <= 0.25) by nra.
    assert (Q4 : 0 <= c * d * 0.25 * v * b <= 0.275) by nra.
    nra. }
  destruct S as [S Snight].
  rewrite windEfficiency_clamped, solarEfficiency_clamped.
  split; [cases_minmax; lra|]. split; [cases_minmax; lra|].
  split; [exact S|]. split; [cases_minmax; lra|].
  intros Hh. apply Hn in Hh.
  assert (U2 : uvIndex w = 2) by (apply Huv2; rewrite Hh; discriminate).
  specialize (Snight U2). cases_minmax; lra.
Qed.

Lemma prediction_of_synthesized_sample_witness :
  exists w st',
    generateRealisticWeatherData july_night 3 fresh_store = (Return w, st') /\
    solarEfficiency (predictEnergyEfficiency july_night w None) <= 0.275.
Proof.
  destruct (prediction_of_synthesized_sample july_night 3
              unit_source_fresh_store)
    as (w & st' & E & H).
  exists w, st'. split; [exact E|].
  apply (H None). left; lra.
Defined.

(** ** Mode and tick together *)

(** X26. A mode set by [setMode] takes effect on the next tick: the tick
    reports that mode, and it synthesizes sensor data exactly when the
    mode set is "offline". An unknown mode string thus runs like
    "online". *)
Theorem setMode_then_tick :
  forall (mode0 : string) (apiKey : option string) (now : Date) (st : Store),
    exists st1 r st2,
      setMode mode0 apiKey st = (Return tt, st1) /\
      generateEnhancedEnergyData now st1 = (Return r, st2) /\
      result_mode r = mode0 /\
      mode (self st2) = mode0 /\
      (iotData r <> None <-> mode0 = "offline"%string).
Proof.
  intros mode0 apiKey now st.
  assert (S : exists st1, setMode mode0 apiKey st = (Return tt, st1) /\
                          mode (self st1) = mode0).
  { unfold setMode, on_this. eexists; split; [reflexivity|].
    cbn [self]. destruct (truthy apiKey); reflexivity. }
  destruct S as (st1 & Es & Hm).
  destruct (generateEnhancedEnergyData_full now st1)
    as (w & f & iot & s1 & s2 & _ & _ & Hi & Hs1 & E).
  cbv zeta in E. exists st1. eexists _, _.
  split; [exact Es|]. split; [exact E|].
  cbn [self result_mode iotData].
  match goal with |- context [calculateBatteryLevel ?b ?o ?r (self st1)] =>
    destruct (calculateBatteryLevel_keeps_config b o r (self st1)) as [Hk _]
  end.
  rewrite Hk, Hm. split; [reflexivity|]. split; [reflexivity|].
  rewrite <- Hm, <- Hs1.
  destruct Hi as [(Hoff & d & -> & _) | (Hon & -> & _)]; split; intros H;
    try assumption; try discriminate; try contradiction.
Qed.
